(** * modd: process supervision (proc.go)

    A shallow embedding of [proc.go]: the header formatter [niceHeader], the
    output streamer [logOutput], the one-shot runner [RunProc], the prep
    sequencer [RunPreps], the [daemon] restart loop with [Restart] and
    [Shutdown], and the [DaemonPen] that manages a slice of daemons.

    Go strings are byte strings ([string], one [ascii] per byte).  Everything
    the code asks of the operating system (pipes, process start and exit,
    signals, the clock) is answered by an oracle [Env]; the code itself is
    written in a state monad over a [World] that holds the clock, the trace of
    observable calls, the [exec.Cmd] objects and the heap of [daemon]
    structs. *)

From Stdlib Require Import ZArith Lia List String Ascii Bool.
From stdpp Require Import base list.
Import ListNotations.
Local Open Scope string_scope.
Local Open Scope list_scope.
Local Open Scope stdpp_scope.
Local Open Scope Z_scope.

Infix "+:+" := String.append (at level 60, right associativity).

(** ** Time *)

(** [time.Time] as nanoseconds since the zero Time; [time.Duration] is an
    int64 count of nanoseconds. *)
Definition Time := Z.
Definition Duration := Z.

Definition zeroTime : Time := 0.
Definition Second : Duration := 1000000000.
Definition maxDuration : Duration := 2 ^ 63 - 1.
Definition minDuration : Duration := - 2 ^ 63.

(** MinRestart is the minimum amount of time between daemon restarts *)
Definition MinRestart : Duration := 1 * Second.

(** int64 wrap-around of Go's arithmetic on [Duration]. *)
Definition wrap64 (z : Z) : Z := (z + 2 ^ 63) mod 2 ^ 64 - 2 ^ 63.

Definition Duration_sub (a b : Duration) : Duration := wrap64 (a - b).

(** [t.Sub(u)]: the difference, saturated to the int64 range. *)
Definition Time_Sub (t u : Time) : Duration :=
  if t - u <? minDuration then minDuration
  else if maxDuration <? t - u then maxDuration
  else t - u.

(** ** Strings and the header *)

Definition lineLimit : nat := 80.
Definition postamble : string := "...".

(** The class [\s] of Go's regexp syntax: tab, newline, form feed, carriage
    return and space. *)
Definition isSpace (c : ascii) : bool :=
  match nat_of_ascii c with
  | 9%nat | 10%nat | 12%nat | 13%nat | 32%nat => true
  | _ => false
  end.

Definition startsSpace (s : string) : bool :=
  match s with
  | String c _ => isSpace c
  | EmptyString => false
  end.

(** [ws.ReplaceAllString(s, repl)] for [ws = `\s\s+`]: scanning from the
    left, a match starts at a whitespace byte that is followed by another
    one and greedily takes the rest of the run; [inMatch] says that the
    scan is inside a match whose replacement was already written. *)
Fixpoint ws_ReplaceAllString_from (inMatch : bool) (s repl : string) : string :=
  match s with
  | EmptyString => EmptyString
  | String c s' =>
      if isSpace c then
        if inMatch then ws_ReplaceAllString_from true s' repl
        else if startsSpace s' then
          String.append repl (ws_ReplaceAllString_from true s' repl)
        else String c (ws_ReplaceAllString_from false s' repl)
      else String c (ws_ReplaceAllString_from false s' repl)
  end.

Definition ws_ReplaceAllString (s repl : string) : string :=
  ws_ReplaceAllString_from false s repl.



Fixpoint noSpacePair (s : string) : bool :=
  match s with
  | EmptyString => true
  | String c s' => negb (isSpace c && startsSpace s') && noSpacePair s'
  end.

(** The colours of [termlog.DefaultPalette] that [niceHeader] uses.  A
    coloured string is kept as its segments: what [SprintFunc] wraps in
    escape codes is the segment's text. *)
Inductive Colour := Timestamp | Say | Header.

Definition Styled := list (Colour * string).

Definition Sprint (c : Colour) (s : string) : Styled := [(c, s)].


(** [s[:n]] on bytes. *)
Definition slice_to (n : nat) (s : string) : string := String.substring 0 n s.

(** niceHeader tries to produce a nicer process name. We condense whitespace
    to make commands split over multiple lines with indentation more legible,
    and limit the line length to 80 characters. *)
Definition niceHeader (preamble : string) (inp : string) : Styled :=
  let pre := Sprint Timestamp preamble in
  let post : Styled := [] in
  let inp := ws_ReplaceAllString inp " " in
  let '(post, inp) :=
    if (lineLimit - String.length postamble <? String.length inp)%nat
    then (Sprint Say postamble,
          slice_to (lineLimit - String.length postamble) inp)
    else (post, inp) in
  let inp := Sprint Header inp in
  pre ++ inp ++ post.



Definition getShell : string := "/bin/sh".

(** ** Configuration and logging *)

(** Modelled from the spec: the type [conf.Prep] of package [conf], of which
    the code reads the command text. *)
Record Prep := mkPrep { Prep_Command : string }.

Inductive Signal := SIGHUP | SIGINT | SIGQUIT | SIGKILL | SIGUSR1 | SIGUSR2 | SIGTERM.

(** Modelled from the spec: the type [conf.Daemon] of package [conf]: the
    command text and the restart signal. *)
Record Daemon := mkDaemon { Daemon_Command : string; RestartSignal : Signal }.

(** A Go [error] value, by its message. *)
Inductive error := Err (msg : string).

(** [termlog.TermLog] and the [termlog.Stream] it hands out for a header. *)
Inductive TermLog := mkTermLog (id : nat).

Record Stream := mkStream { st_log : TermLog; st_header : Styled }.

Definition TermLog_Stream (log : TermLog) (header : Styled) : Stream :=
  mkStream log header.

(** An argument of a formatted log call. *)
Inductive Arg := ArgStr (s : string) | ArgErr (e : error) | ArgDuration (d : Duration).

(** ** Processes *)

(** What [Wait] learns when a process ends: the error it returns ([None] on
    exit status 0), [ProcessState.String()] and [ProcessState.UserTime()]. *)
Record ExitInfo := mkExit {
  ei_err : option error;
  ei_desc : string;
  ei_utime : Duration
}.

(** A process is not started, running, running with a fatal signal
    delivered, or finished and reaped. *)
Inductive ProcState :=
| NotStarted
| Live
| Dying (i : ExitInfo)
| Exited (i : ExitInfo).

Record Cmd := mkCmd {
  c_path : string;
  c_args : list string;
  c_state : ProcState
}.

(** The two pipes of a command. *)
Inductive Pipe := StdoutOf (c : nat) | StderrOf (c : nat).

(** An [io.ReadCloser], by what reading it to the end yields: the bytes, and
    then the error that ends the stream ([io.EOF], or a read error). *)
Record ReadCloser := mkReadCloser { rc_data : list ascii; rc_err : error }.

(** A method value [log.Say] or [log.Warn], as [logOutput] receives it. *)
Inductive Sink := SinkSay (s : Stream) | SinkWarn (s : Stream).

(** Results of Go's [(T, error)] calls. *)
Inductive result (A : Type) := Ok (a : A) | Fail (e : error).
Arguments Ok {A} a.
Arguments Fail {A} e.

(** ** The daemon struct *)

Record daemon := mkdaemon {
  conf : Daemon;
  log : Stream;
  cmd : option nat;   (* *exec.Cmd: nil or the address of a Cmd *)
  stop : bool
}.

(** A goroutine started by a [go] statement. *)
Inductive Task :=
| GoLogOutput (fp : Pipe) (out : Sink)
| GoRun (d : nat).

(** ** Observable calls *)

Inductive Event :=
| LogHeader (s : Stream)
| LogSay (s : Stream) (format : string) (args : list Arg)
| LogWarn (s : Stream) (format : string) (args : list Arg)
| LogShout (s : Stream) (format : string) (args : list Arg)
| LogNoticeAs (s : Stream) (name format : string) (args : list Arg)
| EvCommand (c : nat) (path : string) (args : list string)
| EvStdoutPipe (c : nat)
| EvStderrPipe (c : nat)
| EvStart (c : nat)
| EvWait (c : nat)
| EvSignal (c : nat) (sig : Signal) (delivered : bool)
| EvNow (t : Time)
| EvSleep (d : Duration).

(** ** The world *)

Record World := mkWorld {
  w_now : Time;            (* the clock at its last reading *)
  w_ticks : nat;           (* how many times the clock was read *)
  w_trace : list Event;    (* oldest first *)
  w_cmds : list Cmd;       (* exec.Cmd objects; a *exec.Cmd is an index *)
  w_heap : list daemon;    (* daemon variables; a *daemon is an index *)
  w_tasks : list Task      (* goroutines started so far *)
}.

Definition set_now (t : Time) (w : World) : World :=
  mkWorld t (w_ticks w) (w_trace w) (w_cmds w) (w_heap w) (w_tasks w).
Definition set_ticks (n : nat) (w : World) : World :=
  mkWorld (w_now w) n (w_trace w) (w_cmds w) (w_heap w) (w_tasks w).
Definition set_trace (t : list Event) (w : World) : World :=
  mkWorld (w_now w) (w_ticks w) t (w_cmds w) (w_heap w) (w_tasks w).
Definition set_cmds (c : list Cmd) (w : World) : World :=
  mkWorld (w_now w) (w_ticks w) (w_trace w) c (w_heap w) (w_tasks w).
Definition set_heap (h : list daemon) (w : World) : World :=
  mkWorld (w_now w) (w_ticks w) (w_trace w) (w_cmds w) h (w_tasks w).
Definition set_tasks (t : list Task) (w : World) : World :=
  mkWorld (w_now w) (w_ticks w) (w_trace w) (w_cmds w) (w_heap w) t.

(** What the operating system will answer.  Commands are numbered in the
    order [exec.Command] creates them. *)
Record Env := mkEnv {
  env_stdout_pipe : nat -> option error;      (* does StdoutPipe fail *)
  env_stderr_pipe : nat -> option error;      (* does StderrPipe fail *)
  env_start : nat -> option error;            (* does Start fail *)
  env_exit : nat -> option ExitInfo;          (* how the process ends when
                                                 left alone, if it ever does *)
  env_signal : nat -> Signal -> option ExitInfo;  (* how a signal ends it,
                                                     if it does *)
  env_elapse : nat -> N;                      (* time that passed before the
                                                 n-th reading of the clock *)
  env_pipe : Pipe -> ReadCloser               (* what can be read from a pipe *)
}.

(** ** The monad of the code *)

(** A computation returns a value and a new world, or [None] when the call
    does not return: it blocks forever, or panics. *)
Definition M (A : Type) : Type := World -> option (A * World).

Definition ret {A} (a : A) : M A := fun w => Some (a, w).

Definition bind {A B} (m : M A) (k : A -> M B) : M B :=
  fun w => match m w with
           | Some (a, w') => k a w'
           | None => None
           end.

Definition blocked {A} : M A := fun _ => None.

Notation "x <- m ;; k" := (bind m (fun x => k))
  (at level 100, m at next level, right associativity).
Notation "m ;; k" := (bind m (fun _ => k))
  (at level 100, right associativity).

Definition emit (e : Event) : M unit :=
  fun w => Some (tt, set_trace (w_trace w ++ [e]) w).

Definition go (t : Task) : M unit :=
  fun w => Some (tt, set_tasks (w_tasks w ++ [t]) w).

(** *** termlog.Stream *)

Definition Stream_Header (s : Stream) : M unit := emit (LogHeader s).
Definition Stream_Shout (s : Stream) (format : string) (args : list Arg) : M unit :=
  emit (LogShout s format args).
Definition Stream_NoticeAs (s : Stream) (name format : string) (args : list Arg) : M unit :=
  emit (LogNoticeAs s name format args).


(** *** The heap of daemons *)

Definition load (p : nat) : M daemon :=
  fun w => match w_heap w !! p with
           | Some d => Some (d, w)
           | None => None
           end.

Definition store (p : nat) (d : daemon) : M unit :=
  fun w => match w_heap w !! p with
           | Some _ => Some (tt, set_heap (<[p := d]> (w_heap w)) w)
           | None => None
           end.

(** A new variable of type [daemon], holding [d]. *)
Definition alloc (d : daemon) : M nat :=
  fun w => Some (length (w_heap w), set_heap (w_heap w ++ [d]) w).

Definition set_cmd (c : option nat) (d : daemon) : daemon :=
  mkdaemon (conf d) (log d) c (stop d).
Definition set_stop (b : bool) (d : daemon) : daemon :=
  mkdaemon (conf d) (log d) (cmd d) b.

Section Code.

Variable E : Env.

(** *** time *)

Definition time_Now : M Time :=
  fun w =>
    let t := w_now w + Z.of_N (env_elapse E (w_ticks w)) in
    Some (t, set_trace (w_trace w ++ [EvNow t])
               (set_ticks (S (w_ticks w)) (set_now t w))).

(** [time.Sleep(d)] pauses for at least [d]; a negative or zero duration
    returns at once. *)
Definition time_Sleep (d : Duration) : M unit :=
  fun w => Some (tt, set_trace (w_trace w ++ [EvSleep d])
                       (set_now (w_now w + Z.max 0 d) w)).

(** *** os/exec *)

Definition proc_state (c : nat) (w : World) : option ProcState :=
  c_state <$> (w_cmds w !! c).

Definition set_proc (c : nat) (s : ProcState) (w : World) : World :=
  match w_cmds w !! c with
  | Some x => set_cmds (<[c := mkCmd (c_path x) (c_args x) s]> (w_cmds w)) w
  | None => w
  end.

Definition exec_Command (path : string) (args : list string) : M nat :=
  fun w =>
    let c := length (w_cmds w) in
    Some (c, set_trace (w_trace w ++ [EvCommand c path args])
               (set_cmds (w_cmds w ++ [mkCmd path args NotStarted]) w)).

Definition Cmd_StdoutPipe (c : nat) : M (result Pipe) :=
  emit (EvStdoutPipe c) ;;
  match env_stdout_pipe E c with
  | Some e => ret (Fail e)
  | None => ret (Ok (StdoutOf c))
  end.

Definition Cmd_StderrPipe (c : nat) : M (result Pipe) :=
  emit (EvStderrPipe c) ;;
  match env_stderr_pipe E c with
  | Some e => ret (Fail e)
  | None => ret (Ok (StderrOf c))
  end.

Definition Cmd_Start (c : nat) : M (option error) :=
  fun w =>
    match proc_state c w with
    | Some NotStarted =>
        let w := set_trace (w_trace w ++ [EvStart c]) w in
        match env_start E c with
        | Some e => Some (Some e, w)
        | None => Some (None, set_proc c Live w)
        end
    | Some _ =>
        Some (Some (Err "exec: already started"),
              set_trace (w_trace w ++ [EvStart c]) w)
    | None => None
    end.

(** [c.Wait()] returns once the process has ended.  A running process that
    never ends keeps the caller blocked. *)
Definition Cmd_Wait (c : nat) : M (option error) :=
  fun w =>
    match proc_state c w with
    | Some NotStarted =>
        Some (Some (Err "exec: not started"),
              set_trace (w_trace w ++ [EvWait c]) w)
    | Some Live =>
        match env_exit E c with
        | Some i =>
            Some (ei_err i,
                  set_trace (w_trace w ++ [EvWait c]) (set_proc c (Exited i) w))
        | None => None
        end
    | Some (Dying i) =>
        Some (ei_err i,
              set_trace (w_trace w ++ [EvWait c]) (set_proc c (Exited i) w))
    | Some (Exited _) =>
        Some (Some (Err "exec: Wait was already called"),
              set_trace (w_trace w ++ [EvWait c]) w)
    | None => None
    end.

(** [c.Process.Signal(sig)]: [c.Process] is nil before Start; a finished
    process gets nothing (the call returns an error, which the callers drop). *)
Definition Process_Signal (c : nat) (sig : Signal) : M unit :=
  fun w =>
    match proc_state c w with
    | Some NotStarted => None
    | Some Live =>
        let w := set_trace (w_trace w ++ [EvSignal c sig true]) w in
        match env_signal E c sig with
        | Some i => Some (tt, set_proc c (Dying i) w)
        | None => Some (tt, w)
        end
    | Some (Dying _) =>
        Some (tt, set_trace (w_trace w ++ [EvSignal c sig true]) w)
    | Some (Exited _) =>
        Some (tt, set_trace (w_trace w ++ [EvSignal c sig false]) w)
    | None => None
    end.

Definition ProcessState_String (c : nat) : M string :=
  fun w =>
    match proc_state c w with
    | Some (Exited i) => Some (ei_desc i, w)
    | Some _ => Some ("<nil>"%string, w)
    | None => None
    end.

Definition ProcessState_UserTime (c : nat) : M Duration :=
  fun w =>
    match proc_state c w with
    | Some (Exited i) => Some (ei_utime i, w)
    | _ => None
    end.

(** *** RunProc *)

(** RunProc runs a process to completion, sending output to log *)
Definition RunProc (cmd : string) (log : Stream) : M (option error) :=
  Stream_Header log ;;
  let sh := getShell in
  c <- exec_Command sh ["-c"%string; cmd] ;;
  r <- Cmd_StdoutPipe c ;;
  match r with
  | Fail err => ret (Some err)
  | Ok stdo =>
      r <- Cmd_StderrPipe c ;;
      match r with
      | Fail err => ret (Some err)
      | Ok stde =>
          go (GoLogOutput stde (SinkWarn log)) ;;
          go (GoLogOutput stdo (SinkSay log)) ;;
          err <- Cmd_Start c ;;
          match err with
          | Some e => ret (Some e)
          | None =>
              err <- Cmd_Wait c ;;
              match err with
              | Some e =>
                  s <- ProcessState_String c ;;
                  Stream_Shout log "%s" [ArgStr s] ;;
                  ret (Some e)
              | None =>
                  u <- ProcessState_UserTime c ;;
                  Stream_NoticeAs log "cmdstats" "run time: %s" [ArgDuration u] ;;
                  ret None
              end
          end
      end
  end.

(** RunPreps runs all commands in sequence. Stops if any command returns an
    error. *)
Fixpoint RunPreps (preps : list Prep) (log : TermLog) : M (option error) :=
  match preps with
  | [] => ret None
  | p :: preps' =>
      err <- RunProc (Prep_Command p)
               (TermLog_Stream log (niceHeader "prep: " (Prep_Command p))) ;;
      match err with
      | Some e => ret (Some e)
      | None => RunPreps preps' log
      end
  end.

(** *** bufio *)


(** A [bufio.Reader]: the bytes not yet handed out (buffered or still in the
    stream), the error at the end of the stream, and the buffer's size. *)
Record Reader := mkReader {
  rd_data : list ascii;
  rd_err : error;
  rd_size : nat
}.


Definition LF : ascii := ascii_of_nat 10.
Definition CR : ascii := ascii_of_nat 13.

(** [bytes.IndexByte]. *)
Fixpoint IndexByte (l : list ascii) (b : ascii) : option nat :=
  match l with
  | [] => None
  | x :: l' => if Ascii.eqb x b then Some O else S <$> IndexByte l' b
  end.

Definition ends_with (l : list ascii) (b : ascii) : bool :=
  match last l with
  | Some x => Ascii.eqb x b
  | None => false
  end.

(** [r.ReadLine()]: the line up to the next newline when that fits the
    buffer, without its "\n" or "\r\n"; a full buffer without a newline is
    handed out as it is with [isPrefix] set (a final "\r" is kept back for
    the next call); at the end of the stream, what is left, and then the
    stream's error. *)
Definition ReadLine (r : Reader) : list ascii * bool * option error * Reader :=
  let data := rd_data r in
  let window := take (rd_size r) data in
  match IndexByte window LF with
  | Some i =>
      let line := take i data in
      let line := if ends_with line CR then removelast line else line in
      (line, false, None, mkReader (drop (S i) data) (rd_err r) (rd_size r))
  | None =>
      if (length data <? rd_size r)%nat then
        match data with
        | [] => ([], false, Some (rd_err r), r)
        | _ => (data, false, None, mkReader [] (rd_err r) (rd_size r))
        end
      else if ends_with window CR then
        (removelast window, true, None,
         mkReader (drop (rd_size r - 1) data) (rd_err r) (rd_size r))
      else
        (window, true, None,
         mkReader (drop (rd_size r) data) (rd_err r) (rd_size r))
  end.



(** *** daemon *)

(** Where the goroutine of [Run] stands: at the loop condition, inside
    [c.Wait()], or returned.  [lastStart] is the local variable. *)
Inductive RunPc :=
| AtLoop (lastStart : Time)
| AtWait (lastStart : Time) (c : nat)
| Returned.

(** [Run] from the loop condition to the call of [c.Wait()], or to the
    [continue] that ends the iteration before it. *)
Definition Run_head (p : nat) (lastStart : Time) : M RunPc :=
  d <- load p ;;
  if stop d then ret Returned
  else
    Stream_Header (log d) ;;
    now <- time_Now ;;
    let since := Time_Sub now lastStart in
    (if since <? MinRestart
     then time_Sleep (Duration_sub MinRestart since)
     else ret tt) ;;
    lastStart <- time_Now ;;
    let sh := getShell in
    c <- exec_Command sh ["-c"%string; Daemon_Command (conf d)] ;;
    r <- Cmd_StdoutPipe c ;;
    match r with
    | Fail err =>
        Stream_Shout (log d) "%s" [ArgErr err] ;;
        ret (AtLoop lastStart)
    | Ok stdo =>
        r <- Cmd_StderrPipe c ;;
        match r with
        | Fail err =>
            Stream_Shout (log d) "%s" [ArgErr err] ;;
            ret (AtLoop lastStart)
        | Ok stde =>
            go (GoLogOutput stde (SinkWarn (log d))) ;;
            go (GoLogOutput stdo (SinkSay (log d))) ;;
            err <- Cmd_Start c ;;
            match err with
            | Some err =>
                Stream_Shout (log d) "%s" [ArgErr err] ;;
                ret (AtLoop lastStart)
            | None =>
                d <- load p ;;
                store p (set_cmd (Some c) d) ;;
                ret (AtWait lastStart c)
            end
        end
    end.

(** [Run] from [c.Wait()] to the end of the iteration. *)
Definition Run_wait (p : nat) (lastStart : Time) (c : nat) : M RunPc :=
  err <- Cmd_Wait c ;;
  match err with
  | Some _ =>
      d <- load p ;;
      s <- ProcessState_String c ;;
      Stream_Shout (log d) "%s" [ArgStr s] ;;
      ret (AtLoop lastStart)
  | None => ret (AtLoop lastStart)
  end.

Definition Run_step (p : nat) (pc : RunPc) : M RunPc :=
  match pc with
  | AtLoop lastStart => Run_head p lastStart
  | AtWait lastStart c => Run_wait p lastStart c
  | Returned => ret Returned
  end.

(** [n] steps of the goroutine of [Run], as far as it is not blocked. *)
Fixpoint Run_steps (n : nat) (p : nat) (pc : RunPc) (w : World) : RunPc * World :=
  match n with
  | O => (pc, w)
  | S n' =>
      match Run_step p pc w with
      | Some (pc', w') => Run_steps n' p pc' w'
      | None => (pc, w)
      end
  end.

(** [d.Run()] starts with [lastStart] the zero Time. *)
Definition Run (n : nat) (p : nat) (w : World) : RunPc * World :=
  Run_steps n p (AtLoop zeroTime) w.

Definition daemon_Restart (p : nat) : M unit :=
  d <- load p ;;
  match cmd d with
  | Some c =>
      Stream_Header (log d) ;;
      Process_Signal c (RestartSignal (conf d))
  | None => ret tt
  end.

Definition daemon_Shutdown (p : nat) (sig : Signal) : M unit :=
  d <- load p ;;
  store p (set_stop true d) ;;
  d <- load p ;;
  match cmd d with
  | Some c =>
      Process_Signal c sig ;;
      _ <- Cmd_Wait c ;;
      ret tt
  | None => ret tt
  end.

(** *** DaemonPen *)

(** A slice [[]daemon]: its elements are the daemon variables at
    [sl_base], ..., [sl_base + sl_len - 1]. *)
Record Slice := mkSlice { sl_base : nat; sl_len : nat }.

(** DaemonPen is a group of daemons, managed as a unit. *)
Record DaemonPen := mkDaemonPen {
  daemons : option Slice;   (* *[]daemon *)
  locked : bool             (* sync.Mutex *)
}.

Definition Lock (dp : DaemonPen) : M DaemonPen :=
  if locked dp then blocked else ret (mkDaemonPen (daemons dp) true).

Definition Unlock (dp : DaemonPen) : M DaemonPen :=
  ret (mkDaemonPen (daemons dp) false).

(** The zero value of [daemon] that [make] fills a slice with.  The nil
    interface values of [log] and [RestartSignal] have no counterpart here;
    [Start] assigns every element before anything reads it. *)
Definition zero_daemon : daemon :=
  mkdaemon (mkDaemon "" SIGHUP) (mkStream (mkTermLog 0) []) None false.

(** [make([]daemon, n)]. *)
Definition make_daemons (n : nat) : M Slice :=
  fun w => Some (mkSlice (length (w_heap w)) n,
                 set_heap (w_heap w ++ replicate n zero_daemon) w).

Fixpoint for_each {A} (l : list A) (body : A -> M unit) : M unit :=
  match l with
  | [] => ret tt
  | x :: l' => body x ;; for_each l' body
  end.

(** [for _, d := range s { body }]: [d] is a variable of its own, which
    receives a copy of each element in turn; [body] gets its address. *)
Definition range_values (s : Slice) (body : nat -> M unit) : M unit :=
  d <- alloc zero_daemon ;;
  for_each (seq 0 (sl_len s))
    (fun i => x <- load (sl_base s + i) ;; store d x ;; body d).

(** Start starts set of daemons, each specified by a command *)
Definition DaemonPen_Start (dp : DaemonPen) (specs : list Daemon) (log : TermLog)
  : M DaemonPen :=
  dp <- Lock dp ;;
  d <- make_daemons (length specs) ;;
  for_each (imap (fun i dmn => (i, dmn)) specs)
    (fun '(i, dmn) =>
       store (sl_base d + i)
         (mkdaemon dmn
            (TermLog_Stream log (niceHeader "daemon: " (Daemon_Command dmn)))
            None false) ;;
       go (GoRun (sl_base d + i))) ;;
  Unlock (mkDaemonPen (Some d) (locked dp)).

(** Restart all daemons in the pen *)
Definition DaemonPen_Restart (dp : DaemonPen) : M DaemonPen :=
  dp <- Lock dp ;;
  match daemons dp with
  | Some s => range_values s (fun d => daemon_Restart d)
  | None => ret tt
  end ;;
  Unlock dp.

(** Shutdown all daemons in the pen *)
Definition DaemonPen_Shutdown (dp : DaemonPen) (sig : Signal) : M DaemonPen :=
  dp <- Lock dp ;;
  match daemons dp with
  | Some s => range_values s (fun d => daemon_Shutdown d sig)
  | None => ret tt
  end ;;
  Unlock dp.

End Code.

(** ** Reading traces *)

(** The high-severity lines of a trace. *)
Fixpoint shouts (tr : list Event) : list (string * list Arg) :=
  match tr with
  | [] => []
  | LogShout _ format args :: tr' => (format, args) :: shouts tr'
  | _ :: tr' => shouts tr'
  end.

(** The command lines handed to [exec.Command], in order. *)
Fixpoint spawned (tr : list Event) : list (string * list string) :=
  match tr with
  | [] => []
  | EvCommand _ path args :: tr' => (path, args) :: spawned tr'
  | _ :: tr' => spawned tr'
  end.

(** The sleeps of a trace. *)
Fixpoint sleeps (tr : list Event) : list Duration :=
  match tr with
  | [] => []
  | EvSleep d :: tr' => d :: sleeps tr'
  | _ :: tr' => sleeps tr'
  end.

(** The launch times of a trace: for each command, the reading of the clock
    that came last before it ([last] when there was none).  In [Run] this is
    the value of [lastStart] at that launch. *)
Fixpoint launch_times_from (last : Time) (tr : list Event) : list Time :=
  match tr with
  | [] => []
  | EvNow t :: tr' => launch_times_from t tr'
  | EvCommand _ _ _ :: tr' => last :: launch_times_from last tr'
  | _ :: tr' => launch_times_from last tr'
  end.

Definition launch_times (tr : list Event) : list Time :=
  launch_times_from zeroTime tr.

(** The last reading of the clock in a trace. *)
Fixpoint last_now (last : Time) (tr : list Event) : Time :=
  match tr with
  | [] => last
  | EvNow t :: tr' => last_now t tr'
  | _ :: tr' => last_now last tr'
  end.

(** Events other than a clock reading or a command. *)
Definition timeless (e : Event) : bool :=
  match e with
  | EvNow _ | EvCommand _ _ _ => false
  | _ => true
  end.

(** Consecutive times are at least [gap] apart. *)
Fixpoint spaced (gap : Duration) (l : list Time) : bool :=
  match l with
  | a :: (b :: _) as l' => (a + gap <=? b) && spaced gap l'
  | _ => true
  end.

(** ** What the runner and the sequencer do *)

(** The events and goroutines of a call of [RunProc] that creates command
    [c], by how far it gets. *)
Definition upto_stdout (log : Stream) (c : nat) (cmd : string) : list Event :=
  [LogHeader log; EvCommand c getShell ["-c"; cmd]; EvStdoutPipe c].
Definition upto_stderr (log : Stream) (c : nat) (cmd : string) : list Event :=
  upto_stdout log c cmd ++ [EvStderrPipe c].
Definition upto_start (log : Stream) (c : nat) (cmd : string) : list Event :=
  upto_stderr log c cmd ++ [EvStart c].
Definition upto_wait (log : Stream) (c : nat) (cmd : string) : list Event :=
  upto_start log c cmd ++ [EvWait c].
Definition streamers (log : Stream) (c : nat) : list Task :=
  [GoLogOutput (StderrOf c) (SinkWarn log); GoLogOutput (StdoutOf c) (SinkSay log)].

(** The stream and the command line that [RunPreps] uses for a prep. *)
Definition prep_stream (log : TermLog) (p : Prep) : Stream :=
  TermLog_Stream log (niceHeader "prep: " (Prep_Command p)).
Definition prep_cmdline (p : Prep) : string * list string :=
  (getShell, ["-c"; Prep_Command p]).

(** Every prep of the list runs and succeeds, one after the other, taking
    the world from [w] to [w']. *)
Inductive preps_succeed (E : Env) (log : TermLog) : list Prep -> World -> World -> Prop :=
| preps_succeed_nil w : preps_succeed E log [] w w
| preps_succeed_cons p ps w w1 w2 :
    RunProc E (Prep_Command p) (prep_stream log p) w = Some (None, w1) ->
    preps_succeed E log ps w1 w2 ->
    preps_succeed E log (p :: ps) w w2.

(** ** The parts of an iteration of Run *)

(** The first part of an iteration of [Run]: header, throttle, and the new
    [lastStart]. *)
Definition throttle (E : Env) (st : Stream) (lastStart : Time) : M Time :=
  Stream_Header st ;;
  now <- time_Now E ;;
  let since := Time_Sub now lastStart in
  (if since <? MinRestart
   then time_Sleep (Duration_sub MinRestart since)
   else ret tt) ;;
  time_Now E.

(** The world after [throttle], written out. *)
Definition throttled (E : Env) (st : Stream) (lastStart : Time) (w : World)
  : Time * World :=
  let t1 := w_now w + Z.of_N (env_elapse E (w_ticks w)) in
  let since := Time_Sub t1 lastStart in
  let now1 := if since <? MinRestart
              then t1 + Z.max 0 (Duration_sub MinRestart since) else t1 in
  let t2 := now1 + Z.of_N (env_elapse E (S (w_ticks w))) in
  (t2,
   mkWorld t2 (S (S (w_ticks w)))
     (w_trace w ++ [LogHeader st; EvNow t1]
        ++ (if since <? MinRestart
            then [EvSleep (Duration_sub MinRestart since)] else [])
        ++ [EvNow t2])
     (w_cmds w) (w_heap w) (w_tasks w)).

(** The second part: the command, its pipes and streamers, and its start. *)
Definition launch (E : Env) (p : nat) (d : daemon) (lastStart : Time) : M RunPc :=
  let sh := getShell in
  c <- exec_Command sh ["-c"; Daemon_Command (conf d)] ;;
  r <- Cmd_StdoutPipe E c ;;
  match r with
  | Fail err =>
      Stream_Shout (log d) "%s" [ArgErr err] ;;
      ret (AtLoop lastStart)
  | Ok stdo =>
      r <- Cmd_StderrPipe E c ;;
      match r with
      | Fail err =>
          Stream_Shout (log d) "%s" [ArgErr err] ;;
          ret (AtLoop lastStart)
      | Ok stde =>
          go (GoLogOutput stde (SinkWarn (log d))) ;;
          go (GoLogOutput stdo (SinkSay (log d))) ;;
          err <- Cmd_Start E c ;;
          match err with
          | Some err =>
              Stream_Shout (log d) "%s" [ArgErr err] ;;
              ret (AtLoop lastStart)
          | None =>
              d <- load p ;;
              store p (set_cmd (Some c) d) ;;
              ret (AtWait lastStart c)
          end
      end
  end.

(** The goroutine of [Run] for the daemon at [p] stands at [pc] and can go
    on: the daemon is there and not stopped, and the command it may be
    waiting for exists. *)
Definition running (p : nat) (pc : RunPc) (w : World) : Prop :=
  (exists d, w_heap w !! p = Some d /\ stop d = false) /\
  match pc with
  | AtLoop _ => True
  | AtWait _ c => is_Some (w_cmds w !! c)
  | Returned => False
  end.

(** The daemon that [Start] makes of a specification. *)
Definition new_daemon (log : TermLog) (dmn : Daemon) : daemon :=
  mkdaemon dmn (TermLog_Stream log (niceHeader "daemon: " (Daemon_Command dmn)))
    None false.

(** A process that has been started and is not yet reaped. *)
Definition alive (st : ProcState) : bool :=
  match st with
  | Live | Dying _ => true
  | NotStarted | Exited _ => false
  end.

(** ** Reading streams *)


(** The lines that repeated calls of [ReadLine] yield, up to the first
    error. *)
Fixpoint read_all (fuel : nat) (r : Reader) : list (list ascii) :=
  match fuel with
  | O => []
  | S fuel' =>
      let '(line, _, err, r') := ReadLine r in
      match err with
      | Some _ => []
      | None => line :: read_all fuel' r'
      end
  end.





(** ** Sample environments and worlds *)

Definition EOF : error := Err "EOF".

(** An environment that answers every command alike, with a clock that
    advances by [tick] between readings and empty pipes. *)
Definition env_const (stdout stderr start : option error)
    (exit : option ExitInfo) (signal : option ExitInfo) (tick : N) : Env :=
  mkEnv (fun _ => stdout) (fun _ => stderr) (fun _ => start)
        (fun _ => exit) (fun _ _ => signal) (fun _ => tick)
        (fun _ => mkReadCloser [] EOF).

Definition exit_ok : ExitInfo := mkExit None "exit status 0" 2000000.
Definition exit_1 : ExitInfo :=
  mkExit (Some (Err "exit status 1")) "exit status 1" 1000000.
Definition killed : ExitInfo :=
  mkExit (Some (Err "signal: terminated")) "signal: terminated" 0.

Definition env_ok : Env := env_const None None None (Some exit_ok) (Some killed) 5%N.
Definition env_fails : Env := env_const None None None (Some exit_1) (Some killed) 5%N.
Definition env_no_pipe : Env :=
  env_const (Some (Err "pipe: too many open files")) None None
            (Some exit_ok) (Some killed) 5%N.
Definition env_no_start : Env :=
  env_const None None (Some (Err "fork/exec /bin/sh: resource temporarily unavailable"))
            (Some exit_ok) (Some killed) 5%N.

(** The first command succeeds, every later one exits with status 1. *)
Definition env_second_fails : Env :=
  mkEnv (fun _ => None) (fun _ => None) (fun _ => None)
        (fun c => match c with O => Some exit_ok | _ => Some exit_1 end)
        (fun _ _ => Some killed) (fun _ => 5%N)
        (fun _ => mkReadCloser [] EOF).


(** A world in which nothing has happened; the clock stands some 2015
    years after the zero Time. *)
Definition world0 : World := mkWorld (63600000000 * Second) 0 [] [] [] [].

Definition the_log : TermLog := mkTermLog 0.
Definition a_stream : Stream := TermLog_Stream the_log (niceHeader "prep: " "make").

(** A daemon as [Start] creates it, and a world that holds just it. *)
Definition a_daemon : daemon :=
  mkdaemon (mkDaemon "devd -m ./public" SIGHUP)
    (TermLog_Stream the_log (niceHeader "daemon: " "devd -m ./public")) None false.
Definition world1 : World := mkWorld (63600000000 * Second) 0 [] [] [a_daemon] [].

(** The world after the first step of [Run] for [a_daemon]: its process
    runs, its goroutine is in [Wait]. *)
Definition world_running : World := snd (Run env_ok 1 0 world1).

(** ... and after [Shutdown] with SIGTERM on that daemon. *)
Definition world_shut : World :=
  match daemon_Shutdown env_ok 0 SIGTERM world_running with
  | Some (_, w) => w
  | None => world_running
  end.

(** A pen, started with one daemon; the daemon's [Run] takes its first
    step; then the pen is shut down with SIGTERM. *)
Definition pen0 : DaemonPen := mkDaemonPen None false.
Definition pen1 : DaemonPen := mkDaemonPen (Some (mkSlice 0 1)) false.
Definition specs1 : list Daemon := [mkDaemon "devd -m ./public" SIGHUP].
Definition pen_world_started : World :=
  match DaemonPen_Start pen0 specs1 the_log world0 with
  | Some (_, w) => w
  | None => world0
  end.
Definition pen_world_running : World := snd (Run env_ok 1 0 pen_world_started).
Definition pen_world_shut : World :=
  match DaemonPen_Shutdown env_ok pen1 SIGTERM pen_world_running with
  | Some (_, w) => w
  | None => pen_world_running
  end.

(** ** More readers of traces and worlds *)

(** A command that is not running: never started, or ended and reaped. *)
Definition settled (x : Cmd) : bool :=
  match c_state x with
  | NotStarted | Exited _ => true
  | Live | Dying _ => false
  end.

(** The command line a [Cmd] was made from. *)
Definition cmdline_of (x : Cmd) : string * list string := (c_path x, c_args x).

(** The streamers that a runner has attached when it got past both pipes,
    and none before. *)
Definition attached (E : Env) (log : Stream) (c : nat) : list Task :=
  match env_stdout_pipe E c, env_stderr_pipe E c with
  | None, None => streamers log c
  | _, _ => []
  end.

(** An event without the note whether a signal reached a process. *)
Definition forget_delivery (e : Event) : Event :=
  match e with
  | EvSignal c sig _ => EvSignal c sig true
  | _ => e
  end.

(** The calls of [Restart] and of [Shutdown] on a daemon, by its command. *)
Definition restart_calls (d : daemon) : list Event :=
  match cmd d with
  | Some c => [LogHeader (log d); EvSignal c (RestartSignal (conf d)) true]
  | None => []
  end.
Definition shutdown_calls (sig : Signal) (d : daemon) : list Event :=
  match cmd d with
  | Some c => [EvSignal c sig true; EvWait c]
  | None => []
  end.

(** The daemons of a slice, in order. *)
Definition slice_daemons (s : Slice) (w : World) : list daemon :=
  take (sl_len s) (drop (sl_base s) (w_heap w)).

(** The command exists and has been started; it has ended. *)
Definition startedb (c : nat) (w : World) : bool :=
  match proc_state c w with
  | Some NotStarted | None => false
  | Some _ => true
  end.
Definition endedb (c : nat) (w : World) : bool :=
  match proc_state c w with
  | Some (Exited _) => true
  | _ => false
  end.

(** The command that a daemon holds, if any, has been started; has ended. *)
Definition holds_started (w : World) (d : daemon) : bool :=
  match cmd d with
  | Some c => startedb c w
  | None => true
  end.
Definition holds_ended (w : World) (d : daemon) : bool :=
  match cmd d with
  | Some c => endedb c w
  | None => true
  end.

(** ** More readers of streams *)




(** Every daemon variable holds no command or a started one. *)
Definition commands_started (w : World) : bool :=
  forallb (holds_started w) (w_heap w).

(** * Properties *)

(** ** niceHeader *)

Section Header.

Local Open Scope nat_scope.











Lemma ws_replace_keeps (s repl : string) :
  noSpacePair s = true -> ws_ReplaceAllString s repl = s.
Proof.
  unfold ws_ReplaceAllString. induction s as [|c s IH]; [reflexivity |].
  simpl. intros H. apply andb_prop in H as [Hc Hs].
  rewrite (IH Hs).
  destruct (isSpace c); [| reflexivity].
  simpl in Hc. destruct (startsSpace s); [discriminate | reflexivity].
Qed.

Lemma ws_replace_starts (s : string) (m : bool) :
  (m = true \/ startsSpace s = false) ->
  startsSpace (ws_ReplaceAllString_from m s " ") = false.
Proof.
  revert m. induction s as [|c s IH]; intros m Hm; [reflexivity |].
  simpl. destruct (isSpace c) eqn:Hc.
  - destruct Hm as [-> | Hs]; [| simpl in Hs; congruence].
    apply IH. now left.
  - simpl. exact Hc.
Qed.

Lemma ws_replace_no_pair (s : string) (m : bool) :
  noSpacePair (ws_ReplaceAllString_from m s " ") = true.
Proof.
  revert m. induction s as [|c s IH]; intros m; [reflexivity |].
  simpl. destruct (isSpace c) eqn:Hc.
  - destruct m; [apply IH |].
    destruct (startsSpace s) eqn:Hs.
    + cbn [String.append noSpacePair].
      rewrite (ws_replace_starts s true) by now left.
      rewrite IH. now rewrite andb_false_r.
    + cbn [noSpacePair].
      rewrite (ws_replace_starts s false) by now right.
      rewrite IH. now rewrite andb_false_r.
  - cbn [noSpacePair]. rewrite Hc, IH. reflexivity.
Qed.




End Header.

(** ** The one-shot runner *)

Section Runner.

Variable E : Env.

Lemma lookup_snoc {A} (l : list A) (x : A) : (l ++ [x]) !! length l = Some x.
Proof. now apply list_lookup_middle. Qed.

Lemma insert_snoc {A} (l : list A) (x y : A) : <[length l := y]> (l ++ [x]) = l ++ [y].
Proof.
  rewrite insert_app_r_alt by lia. now rewrite Nat.sub_diag.
Qed.

(** [RunProc], case by case on what the system answers. *)
Lemma RunProc_cases (cmd : string) (log : Stream) (w : World) :
  let c := length (w_cmds w) in
  let new st := w_cmds w ++ [mkCmd getShell ["-c"; cmd] st] in
  let world tr cs ts :=
    mkWorld (w_now w) (w_ticks w) (w_trace w ++ tr) cs (w_heap w) (w_tasks w ++ ts) in
  RunProc E cmd log w =
  match env_stdout_pipe E c with
  | Some e => Some (Some e, world (upto_stdout log c cmd) (new NotStarted) [])
  | None =>
  match env_stderr_pipe E c with
  | Some e => Some (Some e, world (upto_stderr log c cmd) (new NotStarted) [])
  | None =>
  match env_start E c with
  | Some e => Some (Some e, world (upto_start log c cmd) (new NotStarted) (streamers log c))
  | None =>
  match env_exit E c with
  | None => None
  | Some i =>
      match ei_err i with
      | Some e =>
          Some (Some e,
                world (upto_wait log c cmd ++ [LogShout log "%s" [ArgStr (ei_desc i)]])
                      (new (Exited i)) (streamers log c))
      | None =>
          Some (None,
                world (upto_wait log c cmd
                       ++ [LogNoticeAs log "cmdstats" "run time: %s" [ArgDuration (ei_utime i)]])
                      (new (Exited i)) (streamers log c))
      end
  end end end end.
Proof.
  destruct w as [now ticks tr cmds heap tasks]. cbn [w_cmds w_now w_ticks w_trace w_heap w_tasks].
  unfold RunProc, bind, Stream_Header, emit, exec_Command, Cmd_StdoutPipe,
    Cmd_StderrPipe, emit, ret, go, bind. cbn.
  destruct (env_stdout_pipe E _) as [e|]; cbn.
  { rewrite app_nil_r, <- !app_assoc. reflexivity. }
  destruct (env_stderr_pipe E _) as [e|]; cbn.
  { rewrite app_nil_r, <- !app_assoc. reflexivity. }
  unfold Cmd_Start, proc_state; cbn. rewrite lookup_snoc; cbn.
  destruct (env_start E _) as [e|]; cbn.
  { rewrite <- !app_assoc. reflexivity. }
  unfold Cmd_Wait, set_proc, proc_state; cbn. rewrite lookup_snoc; cbn.
  rewrite insert_snoc, lookup_snoc; cbn.
  destruct (env_exit E _) as [i|]; [| reflexivity].
  unfold ProcessState_String, ProcessState_UserTime, Stream_Shout,
    Stream_NoticeAs, emit, proc_state; cbn.
  rewrite insert_snoc.
  destruct (ei_err i) as [e|]; cbn; rewrite lookup_snoc; cbn;
    rewrite <- !app_assoc; reflexivity.
Qed.

Lemma shouts_app (a b : list Event) : shouts (a ++ b) = shouts a ++ shouts b.
Proof.
  induction a as [|e a IH]; [reflexivity |].
  destruct e; simpl; rewrite ?IH; reflexivity.
Qed.

Lemma spawned_app (a b : list Event) : spawned (a ++ b) = spawned a ++ spawned b.
Proof.
  induction a as [|e a IH]; [reflexivity |].
  destruct e; simpl; rewrite ?IH; reflexivity.
Qed.

(** C7: once the process that [RunProc] started has ended, [RunProc]
    returns what [Wait] returned; when that is an error it has logged
    exactly one high-severity line, the last event, which carries the
    process's termination description; when it is no error it has logged no
    high-severity line and its last event is the timing line with the
    process's user CPU time. *)
Theorem RunProc_reports_exit :
  forall (cmd : string) (log : Stream) (w : World) (i : ExitInfo),
    let c := length (w_cmds w) in
    env_stdout_pipe E c = None ->
    env_stderr_pipe E c = None ->
    env_start E c = None ->
    env_exit E c = Some i ->
    exists w',
      RunProc E cmd log w = Some (ei_err i, w') /\
      match ei_err i with
      | Some e =>
          w_trace w' = w_trace w ++ upto_wait log c cmd
                         ++ [LogShout log "%s" [ArgStr (ei_desc i)]] /\
          shouts (upto_wait log c cmd ++ [LogShout log "%s" [ArgStr (ei_desc i)]])
            = [("%s", [ArgStr (ei_desc i)])]
      | None =>
          w_trace w' = w_trace w ++ upto_wait log c cmd
                         ++ [LogNoticeAs log "cmdstats" "run time: %s"
                               [ArgDuration (ei_utime i)]] /\
          shouts (upto_wait log c cmd
                  ++ [LogNoticeAs log "cmdstats" "run time: %s"
                        [ArgDuration (ei_utime i)]]) = []
      end.
Proof.
  intros cmd log w i c Hso Hse Hst Hex.
  pose proof (RunProc_cases cmd log w) as H. cbv zeta in H.
  fold c in H. rewrite Hso, Hse, Hst, Hex in H.
  destruct (ei_err i) as [e|]; eexists; (split; [exact H |]);
    split; reflexivity.
Qed.

(** Whatever happens, [RunProc] asks for exactly one command: its own. *)
Lemma RunProc_spawns_once (cmd : string) (log : Stream) (w w' : World) r :
  RunProc E cmd log w = Some (r, w') ->
  exists new, w_trace w' = w_trace w ++ new /\
              spawned new = [(getShell, ["-c"; cmd])].
Proof.
  rewrite RunProc_cases.
  destruct (env_stdout_pipe E _); [intros [= <- <-]; eexists; split; reflexivity |].
  destruct (env_stderr_pipe E _); [intros [= <- <-]; eexists; split; reflexivity |].
  destruct (env_start E _); [intros [= <- <-]; eexists; split; reflexivity |].
  destruct (env_exit E _) as [i|]; [| discriminate].
  destruct (ei_err i); intros [= <- <-]; eexists; split; reflexivity.
Qed.

(** C2, as the code has it: each of the three kinds of failure makes
    [RunProc] return the error; a pipe that cannot be set up and a process
    that cannot be started are returned without any high-severity line;
    only the failed exit is logged at high severity, with the termination
    description. *)
Theorem RunProc_propagates_failures :
  forall (cmd : string) (log : Stream) (w : World),
    let c := length (w_cmds w) in
    (forall e,
        env_stdout_pipe E c = Some e \/
        (env_stdout_pipe E c = None /\ env_stderr_pipe E c = Some e) ->
        exists w' new,
          RunProc E cmd log w = Some (Some e, w') /\
          w_trace w' = w_trace w ++ new /\ shouts new = []) /\
    (forall e,
        env_stdout_pipe E c = None -> env_stderr_pipe E c = None ->
        env_start E c = Some e ->
        exists w' new,
          RunProc E cmd log w = Some (Some e, w') /\
          w_trace w' = w_trace w ++ new /\ shouts new = []) /\
    (forall i e,
        env_stdout_pipe E c = None -> env_stderr_pipe E c = None ->
        env_start E c = None ->
        env_exit E c = Some i -> ei_err i = Some e ->
        exists w' new,
          RunProc E cmd log w = Some (Some e, w') /\
          w_trace w' = w_trace w ++ new /\
          shouts new = [("%s", [ArgStr (ei_desc i)])]).
Proof.
  intros cmd log w c.
  pose proof (RunProc_cases cmd log w) as H. cbv zeta in H. fold c in H.
  repeat split.
  - intros e [Hso | [Hso Hse]]; rewrite Hso in H; [| rewrite Hse in H];
      do 2 eexists; (split; [exact H |]); split; reflexivity.
  - intros e Hso Hse Hst. rewrite Hso, Hse, Hst in H.
    do 2 eexists; (split; [exact H |]); split; reflexivity.
  - intros i e Hso Hse Hst Hex Herr. rewrite Hso, Hse, Hst, Hex, Herr in H.
    do 2 eexists; (split; [exact H |]); split; reflexivity.
Qed.

End Runner.

(** The theorem at a command that exits with status 1. *)
Lemma RunProc_reports_exit_witness :
  exists w',
    RunProc env_fails "make" a_stream world0 = Some (Some (Err "exit status 1"), w') /\
    shouts (w_trace w') = [("%s", [ArgStr "exit status 1"])].
Proof.
  destruct (RunProc_reports_exit env_fails "make" a_stream world0 exit_1
              eq_refl eq_refl eq_refl eq_refl) as (w' & Hrun & Htr & _).
  exists w'. split; [exact Hrun |]. rewrite Htr. reflexivity.
Defined.

(** C2 as stated fails where the pipe cannot be set up: the error comes
    back, and nothing was logged at high severity. *)
Lemma RunProc_pipe_failure_not_logged :
  exists w',
    RunProc env_no_pipe "make" a_stream world0
      = Some (Some (Err "pipe: too many open files"), w') /\
    shouts (w_trace w') = [].
Proof.
  rewrite RunProc_cases. eexists. split; reflexivity.
Qed.

(** The theorem at a process that cannot be started. *)
Lemma RunProc_propagates_failures_witness :
  exists w',
    RunProc env_no_start "make" a_stream world0
      = Some (Some (Err "fork/exec /bin/sh: resource temporarily unavailable"), w') /\
    shouts (w_trace w') = [].
Proof.
  destruct (RunProc_propagates_failures env_no_start "make" a_stream world0)
    as (_ & Hstart & _).
  destruct (Hstart _ eq_refl eq_refl eq_refl) as (w' & new & Hrun & Htr & Hs).
  exists w'. split; [exact Hrun |]. rewrite Htr. exact Hs.
Defined.

(** ** The prep sequencer *)

Section Preps.

Variable E : Env.
Variable log : TermLog.

Lemma RunPreps_cons (p : Prep) (ps : list Prep) (w : World) :
  RunPreps E (p :: ps) log w =
  match RunProc E (Prep_Command p) (prep_stream log p) w with
  | Some (Some e, w1) => Some (Some e, w1)
  | Some (None, w1) => RunPreps E ps log w1
  | None => None
  end.
Proof.
  cbn [RunPreps]. unfold bind, prep_stream.
  destruct (RunProc E _ _ w) as [[[e|] w1]|]; reflexivity.
Qed.

(** When all preps succeed, all were run, in order, and no error comes
    back. *)
Lemma RunPreps_all_succeed (ps : list Prep) (w w' : World) :
  preps_succeed E log ps w w' ->
  RunPreps E ps log w = Some (None, w') /\
  exists new, w_trace w' = w_trace w ++ new /\
              spawned new = map prep_cmdline ps.
Proof.
  induction 1 as [w | p ps w w1 w2 Hp Hps [IHrun (new & IHtr & IHsp)]].
  - split; [reflexivity |]. exists []. now rewrite app_nil_r.
  - rewrite RunPreps_cons, Hp. split; [exact IHrun |].
    destruct (RunProc_spawns_once E _ _ _ _ _ Hp) as (new1 & Htr1 & Hsp1).
    exists (new1 ++ new). rewrite IHtr, Htr1, <- app_assoc.
    split; [reflexivity |]. rewrite spawned_app, Hsp1, IHsp. reflexivity.
Qed.

(** A failing prep after successful ones ends the run. *)
Lemma RunPreps_first_error (pre : list Prep) (p : Prep) (post : list Prep)
    (w w1 w2 : World) (e : error) :
  preps_succeed E log pre w w1 ->
  RunProc E (Prep_Command p) (prep_stream log p) w1 = Some (Some e, w2) ->
  RunPreps E (pre ++ p :: post) log w = Some (Some e, w2) /\
  exists new, w_trace w2 = w_trace w ++ new /\
              spawned new = map prep_cmdline (pre ++ [p]).
Proof.
  intros Hpre Hp. induction Hpre as [w | q ps w w0 w1 Hq Hps IH].
  - cbn [app]. rewrite RunPreps_cons, Hp. split; [reflexivity |].
    destruct (RunProc_spawns_once E _ _ _ _ _ Hp) as (new & Htr & Hsp).
    exists new. split; [exact Htr |]. exact Hsp.
  - destruct (IH Hp) as [IHrun (new & IHtr & IHsp)].
    cbn [app]. rewrite RunPreps_cons, Hq. split; [exact IHrun |].
    destruct (RunProc_spawns_once E _ _ _ _ _ Hq) as (new1 & Htr1 & Hsp1).
    exists (new1 ++ new). rewrite IHtr, Htr1, <- app_assoc.
    split; [reflexivity |].
    rewrite spawned_app, Hsp1, IHsp. reflexivity.
Qed.

(** A run that returns is one of the two. *)
Lemma RunPreps_inv (ps : list Prep) (w w' : World) (r : option error) :
  RunPreps E ps log w = Some (r, w') ->
  (r = None /\ preps_succeed E log ps w w') \/
  (exists pre p post w1 e,
      ps = pre ++ p :: post /\ r = Some e /\
      preps_succeed E log pre w w1 /\
      RunProc E (Prep_Command p) (prep_stream log p) w1 = Some (Some e, w')).
Proof.
  revert w. induction ps as [|p ps IH]; intros w.
  - intros [= <- <-]. left. split; [reflexivity | constructor].
  - rewrite RunPreps_cons.
    destruct (RunProc E _ _ w) as [[[e|] w1]|] eqn:Hp; [| | discriminate].
    + intros [= <- <-]. right. exists [], p, ps, w, e.
      repeat split; [constructor | exact Hp].
    + intros Hrun. destruct (IH _ Hrun) as [[-> Hall] | (pre & q & post & w2 & e & -> & -> & Hpre & Hq)].
      * left. split; [reflexivity |]. econstructor; eassumption.
      * right. exists (p :: pre), q, post, w2, e.
        repeat split; [econstructor; eassumption | exact Hq].
Qed.

(** C3: [RunPreps] runs the commands in order.  On the empty sequence it
    returns no error and leaves the world as it is (no command is run).
    When the commands before the N-th succeed and the N-th fails with an
    error, that error is returned and the commands run are those up to the
    N-th, in order: none after it.  When all succeed, no error is returned
    and all were run, in order.  A run that returns is one of these. *)
Theorem RunPreps_sequencing :
  (forall w, RunPreps E [] log w = Some (None, w)) /\
  (forall pre p post w w1 w2 e,
      preps_succeed E log pre w w1 ->
      RunProc E (Prep_Command p) (prep_stream log p) w1 = Some (Some e, w2) ->
      RunPreps E (pre ++ p :: post) log w = Some (Some e, w2) /\
      exists new, w_trace w2 = w_trace w ++ new /\
                  spawned new = map prep_cmdline (pre ++ [p])) /\
  (forall ps w w',
      preps_succeed E log ps w w' ->
      RunPreps E ps log w = Some (None, w') /\
      exists new, w_trace w' = w_trace w ++ new /\
                  spawned new = map prep_cmdline ps) /\
  (forall ps w w' r,
      RunPreps E ps log w = Some (r, w') ->
      (r = None /\ preps_succeed E log ps w w') \/
      (exists pre p post w1 e,
          ps = pre ++ p :: post /\ r = Some e /\
          preps_succeed E log pre w w1 /\
          RunProc E (Prep_Command p) (prep_stream log p) w1 = Some (Some e, w'))).
Proof.
  split; [reflexivity |].
  split; [intros pre p post w w1 w2 e Hpre Hp; exact (RunPreps_first_error pre p post w w1 w2 e Hpre Hp) |].
  split; [intros ps w w' Hps; exact (RunPreps_all_succeed ps w w' Hps) |].
  intros ps w w' r Hrun; exact (RunPreps_inv ps w w' r Hrun).
Qed.

End Preps.

(** The theorem at three preps of which the second fails: the third is not
    run. *)
Lemma RunPreps_sequencing_witness :
  exists w',
    RunPreps env_second_fails [mkPrep "go generate"; mkPrep "go build"; mkPrep "go test"]
      the_log world0 = Some (Some (Err "exit status 1"), w') /\
    spawned (w_trace w') =
      [("/bin/sh", ["-c"; "go generate"]); ("/bin/sh", ["-c"; "go build"])].
Proof.
  destruct (RunPreps_sequencing env_second_fails the_log) as (_ & Hfail & _).
  edestruct (Hfail [mkPrep "go generate"] (mkPrep "go build") [mkPrep "go test"] world0)
    as (Hrun & new & Htr & Hsp).
  - econstructor; [rewrite RunProc_cases; reflexivity | constructor].
  - rewrite RunProc_cases. reflexivity.
  - eexists. split; [exact Hrun |]. rewrite Htr. exact Hsp.
Defined.

(** ** The restart loop *)

Section RestartLoop.

Variable E : Env.

Lemma Run_head_split (p : nat) (lastStart : Time) (w : World) :
  Run_head E p lastStart w =
  match w_heap w !! p with
  | None => None
  | Some d =>
      if stop d then Some (Returned, w)
      else match throttle E (log d) lastStart w with
           | Some (t, w1) => launch E p d t w1
           | None => None
           end
  end.
Proof.
  unfold Run_head, throttle, launch, bind, load.
  destruct (w_heap w !! p) as [d|]; [| reflexivity].
  destruct (stop d); [reflexivity |].
  cbn. destruct (Time_Sub _ _ <? MinRestart); reflexivity.
Qed.

Lemma throttle_eq (st : Stream) (lastStart : Time) (w : World) :
  throttle E st lastStart w = Some (throttled E st lastStart w).
Proof.
  unfold throttle, throttled, bind, Stream_Header, emit, time_Now, time_Sleep, ret.
  cbn. destruct (Time_Sub _ _ <? MinRestart); cbn;
    unfold set_trace, set_now, set_ticks; cbn; rewrite <- !app_assoc; reflexivity.
Qed.

(** What [launch] does: one command, then events that neither read the
    clock nor sleep; it ends the iteration, or records the started command
    in the daemon and goes on to wait for it. *)
Lemma launch_spec (p : nat) (d d0 : daemon) (lastStart : Time) (w : World) :
  w_heap w !! p = Some d0 ->
  let c := length (w_cmds w) in
  exists pc w' rest,
    launch E p d lastStart w = Some (pc, w') /\
    w_trace w' = w_trace w
                  ++ EvCommand c getShell ["-c"; Daemon_Command (conf d)] :: rest /\
    forallb timeless rest = true /\ sleeps rest = [] /\ spawned rest = [] /\
    w_now w' = w_now w /\ w_ticks w' = w_ticks w /\
    length (w_cmds w') = S c /\
    ((pc = AtLoop lastStart /\ w_heap w' = w_heap w) \/
     (pc = AtWait lastStart c /\
      w_heap w' = <[p := set_cmd (Some c) d0]> (w_heap w) /\
      proc_state c w' = Some Live)).
Proof.
  intros Hp c. subst c.
  unfold launch, bind, exec_Command, Cmd_StdoutPipe, Cmd_StderrPipe,
    Stream_Shout, emit, ret, go, bind. cbn.
  destruct (env_stdout_pipe E _) as [e|]; cbn.
  { do 3 eexists. split; [reflexivity |]. cbn. rewrite <- !app_assoc. cbn.
    split; [reflexivity |]. rewrite length_app. cbn.
    repeat split; try reflexivity; try lia. now left. }
  destruct (env_stderr_pipe E _) as [e|]; cbn.
  { do 3 eexists. split; [reflexivity |]. cbn. rewrite <- !app_assoc. cbn.
    split; [reflexivity |]. rewrite length_app. cbn.
    repeat split; try reflexivity; try lia. now left. }
  unfold Cmd_Start, proc_state; cbn. rewrite lookup_snoc; cbn.
  destruct (env_start E _) as [e|]; cbn.
  { do 3 eexists. split; [reflexivity |]. cbn. rewrite <- !app_assoc. cbn.
    split; [reflexivity |]. rewrite length_app. cbn.
    repeat split; try reflexivity; try lia. now left. }
  unfold load, store, set_proc; cbn. rewrite lookup_snoc; cbn. rewrite Hp; cbn.
  rewrite Hp. rewrite insert_snoc.
  do 3 eexists. split; [reflexivity |]. cbn. rewrite <- !app_assoc. cbn.
  split; [reflexivity |]. rewrite length_app. cbn.
  repeat split; try reflexivity; try lia.
  right. repeat split. now rewrite lookup_snoc.
Qed.

(** *** Reading the trace of an iteration *)

Lemma launch_times_from_app (x : Time) (a b : list Event) :
  launch_times_from x (a ++ b) =
  launch_times_from x a ++ launch_times_from (last_now x a) b.
Proof.
  revert x. induction a as [|e a IH]; intros x; [reflexivity |].
  destruct e; cbn; rewrite ?IH; reflexivity.
Qed.

Lemma last_now_app (x : Time) (a b : list Event) :
  last_now x (a ++ b) = last_now (last_now x a) b.
Proof.
  revert x. induction a as [|e a IH]; intros x; [reflexivity |].
  destruct e; cbn; rewrite ?IH; reflexivity.
Qed.

Lemma timeless_quiet (x : Time) (tr : list Event) :
  forallb timeless tr = true ->
  launch_times_from x tr = [] /\ last_now x tr = x.
Proof.
  induction tr as [|e tr IH]; [intros _; split; reflexivity |].
  cbn [forallb]. intros H. apply andb_prop in H as [He Htr].
  destruct e; cbn in He; try discriminate; cbn; auto.
Qed.

Lemma sleeps_app (a b : list Event) : sleeps (a ++ b) = sleeps a ++ sleeps b.
Proof.
  induction a as [|e a IH]; [reflexivity |].
  destruct e; simpl; rewrite ?IH; reflexivity.
Qed.

Lemma length_launch_times_from (x : Time) (tr : list Event) :
  length (launch_times_from x tr) = length (spawned tr).
Proof.
  revert x. induction tr as [|e tr IH]; intros x; [reflexivity |].
  destruct e; cbn; rewrite ?IH; reflexivity.
Qed.

(** *** The throttle *)

(** With [lastStart] not in the future, the new [lastStart] is at least
    [MinRestart] later. *)
Lemma throttled_gap (st : Stream) (lastStart : Time) (w : World) :
  lastStart <= w_now w ->
  lastStart + MinRestart <= fst (throttled E st lastStart w).
Proof.
  intros Hle. unfold throttled. cbn [fst].
  set (t1 := w_now w + Z.of_N (env_elapse E (w_ticks w))).
  assert (Ht1 : lastStart <= t1) by (subst t1; lia).
  pose proof (N2Z.is_nonneg (env_elapse E (S (w_ticks w)))) as He2.
  unfold Time_Sub, Duration_sub, wrap64, MinRestart, Second, minDuration, maxDuration.
  destruct (t1 - lastStart <? - 2 ^ 63) eqn:H1; [apply Z.ltb_lt in H1; lia |].
  destruct (2 ^ 63 - 1 <? t1 - lastStart) eqn:H2.
  - apply Z.ltb_lt in H2.
    replace (2 ^ 63 - 1 <? 1 * 1000000000) with false by reflexivity. lia.
  - apply Z.ltb_ge in H2.
    destruct (t1 - lastStart <? 1 * 1000000000) eqn:H3.
    + apply Z.ltb_lt in H3.
      rewrite Z.mod_small by lia. lia.
    + apply Z.ltb_ge in H3. lia.
Qed.

(** When less than [MinRestart] has passed since [lastStart], the sleep is
    for what is left of it. *)
Lemma throttled_sleeps_rest (st : Stream) (lastStart : Time) (w : World) :
  let t1 := w_now w + Z.of_N (env_elapse E (w_ticks w)) in
  lastStart <= w_now w -> t1 - lastStart < MinRestart ->
  w_trace (snd (throttled E st lastStart w)) =
  w_trace w ++ [LogHeader st; EvNow t1; EvSleep (MinRestart - (t1 - lastStart));
                EvNow (fst (throttled E st lastStart w))].
Proof.
  intros t1 Hle Hlt. unfold throttled. cbn [fst snd w_trace]. fold t1.
  assert (Ht1 : lastStart <= t1) by (subst t1; lia).
  assert (Hsub : Time_Sub t1 lastStart = t1 - lastStart).
  { unfold Time_Sub, minDuration, maxDuration.
    unfold MinRestart, Second in Hlt.
    destruct (t1 - lastStart <? - 2 ^ 63) eqn:H1; [apply Z.ltb_lt in H1; lia |].
    destruct (2 ^ 63 - 1 <? t1 - lastStart) eqn:H2; [apply Z.ltb_lt in H2; lia |].
    reflexivity. }
  rewrite Hsub.
  replace (t1 - lastStart <? MinRestart) with true by (symmetry; now apply Z.ltb_lt).
  assert (Hd : Duration_sub MinRestart (t1 - lastStart) = MinRestart - (t1 - lastStart)).
  { unfold Duration_sub, wrap64. unfold MinRestart, Second in *.
    rewrite Z.mod_small by lia. lia. }
  rewrite Hd. reflexivity.
Qed.

(** Far enough from the zero Time, the first iteration does not sleep. *)
Lemma throttled_first (st : Stream) (w : World) :
  MinRestart <= w_now w ->
  w_trace (snd (throttled E st zeroTime w)) =
  w_trace w ++ [LogHeader st;
                EvNow (w_now w + Z.of_N (env_elapse E (w_ticks w)));
                EvNow (fst (throttled E st zeroTime w))].
Proof.
  intros Hle. unfold throttled. cbn [fst snd w_trace].
  set (t1 := w_now w + Z.of_N (env_elapse E (w_ticks w))).
  assert (Ht1 : MinRestart <= t1) by (subst t1; lia).
  assert (Hsince : (Time_Sub t1 zeroTime <? MinRestart) = false).
  { apply Z.ltb_ge. unfold Time_Sub, zeroTime, minDuration, maxDuration.
    unfold MinRestart, Second in *.
    destruct (t1 - 0 <? - 2 ^ 63) eqn:H1; [apply Z.ltb_lt in H1; lia |].
    destruct (2 ^ 63 - 1 <? t1 - 0) eqn:H2; lia. }
  rewrite Hsince. reflexivity.
Qed.

(** The events of the throttle: no command, and a last reading of the
    clock, which is the new [lastStart]. *)
Lemma throttled_trace (st : Stream) (lastStart : Time) (w : World) :
  exists pre,
    w_trace (snd (throttled E st lastStart w)) = w_trace w ++ pre /\
    spawned pre = [] /\
    forall x, launch_times_from x pre = [] /\
              last_now x pre = fst (throttled E st lastStart w).
Proof.
  unfold throttled. cbn [fst snd w_trace].
  destruct (Time_Sub _ _ <? MinRestart);
    eexists; (split; [reflexivity |]); split; try reflexivity; intros x; split; reflexivity.
Qed.

(** *** One step *)

(** An iteration that starts: the throttle, then the launch. *)
Lemma Run_head_step (p : nat) (d : daemon) (lastStart : Time) (w : World) :
  w_heap w !! p = Some d -> stop d = false ->
  let t2 := fst (throttled E (log d) lastStart w) in
  let w1 := snd (throttled E (log d) lastStart w) in
  let c := length (w_cmds w) in
  exists pc w' rest,
    Run_head E p lastStart w = Some (pc, w') /\
    w_trace w' = w_trace w1
                  ++ EvCommand c getShell ["-c"; Daemon_Command (conf d)] :: rest /\
    forallb timeless rest = true /\ sleeps rest = [] /\ spawned rest = [] /\
    w_now w' = t2 /\
    ((pc = AtLoop t2 /\ w_heap w' = w_heap w) \/
     (pc = AtWait t2 c /\
      w_heap w' = <[p := set_cmd (Some c) d]> (w_heap w) /\
      proc_state c w' = Some Live)).
Proof.
  intros Hp Hstop t2 w1 c.
  rewrite Run_head_split, Hp, Hstop, throttle_eq.
  destruct (throttled E (log d) lastStart w) as [t w2] eqn:Hth.
  assert (Hp2 : w_heap w2 !! p = Some d).
  { unfold throttled in Hth. injection Hth as _ <-. exact Hp. }
  destruct (launch_spec p d d t w2 Hp2)
    as (pc & w' & rest & Hrun & Htr & Hq & Hsl & Hsp & Hnow & _ & _ & Hpc).
  assert (Hcmds : w_cmds w2 = w_cmds w /\ w_heap w2 = w_heap w /\ w_now w2 = t).
  { unfold throttled in Hth. injection Hth as <- <-. repeat split. }
  destruct Hcmds as (Hc & Hh & Hn).
  exists pc, w', rest. subst t2 w1 c. cbn [fst snd].
  rewrite Hc, Hh in *. repeat split; try assumption. congruence.
Qed.

(** The end of an iteration after [Wait]: back to the loop condition, with
    the same [lastStart], the clock not read and the heap as it was. *)
Lemma Run_wait_step (p : nat) (lastStart : Time) (c : nat) (w w' : World) (pc : RunPc) :
  Run_wait E p lastStart c w = Some (pc, w') ->
  pc = AtLoop lastStart /\ w_now w' = w_now w /\ w_heap w' = w_heap w /\
  exists rest, w_trace w' = w_trace w ++ rest /\
               forallb timeless rest = true /\ spawned rest = [].
Proof.
  unfold Run_wait, bind, Cmd_Wait, load, ProcessState_String, Stream_Shout,
    emit, ret, proc_state, set_proc.
  destruct (w_cmds w !! c) as [x|] eqn:Hc; cbn; [| discriminate].
  destruct (c_state x) as [| |i|i] eqn:Hst; cbn.
  - destruct (w_heap w !! p); cbn; [| discriminate]. rewrite Hc; cbn. rewrite Hst.
    intros [= <- <-]. cbn. repeat split.
    eexists. rewrite <- app_assoc. repeat split.
  - destruct (env_exit E c) as [i|]; [| discriminate].
    destruct (ei_err i); cbn.
    + destruct (w_heap w !! p); cbn; [| discriminate].
      rewrite list_lookup_insert_eq by (eapply lookup_lt_Some; eassumption). cbn.
      intros [= <- <-]. cbn. repeat split.
      eexists. rewrite <- app_assoc. repeat split.
    + intros [= <- <-]. cbn. repeat split. eexists. repeat split.
  - destruct (ei_err i); cbn.
    + destruct (w_heap w !! p); cbn; [| discriminate].
      rewrite list_lookup_insert_eq by (eapply lookup_lt_Some; eassumption). cbn.
      intros [= <- <-]. cbn. repeat split.
      eexists. rewrite <- app_assoc. repeat split.
    + intros [= <- <-]. cbn. repeat split. eexists. repeat split.
  - destruct (w_heap w !! p); cbn; [| discriminate]. rewrite Hc; cbn. rewrite Hst.
    intros [= <- <-]. cbn. repeat split.
    eexists. rewrite <- app_assoc. repeat split.
Qed.

(** *** The loop *)

Lemma Run_steps_Returned (n p : nat) (w : World) :
  Run_steps E n p Returned w = (Returned, w).
Proof. induction n as [|n IH]; [reflexivity | exact IH]. Qed.

Lemma spaced_cons (gap : Duration) (a b : Time) (l : list Time) :
  a + gap <= b -> spaced gap (b :: l) = true -> spaced gap (a :: b :: l) = true.
Proof.
  intros Hab Hl. cbn [spaced]. apply andb_true_intro.
  split; [now apply Z.leb_le | exact Hl].
Qed.

(** The events of a started iteration, and their launch time. *)
Lemma Run_head_launch_times (p : nat) (d : daemon) (lastStart x : Time)
    (w w' : World) (pc : RunPc) :
  w_heap w !! p = Some d -> stop d = false ->
  Run_head E p lastStart w = Some (pc, w') ->
  let t2 := fst (throttled E (log d) lastStart w) in
  w_now w' = t2 /\
  (pc = AtLoop t2 \/ exists c, pc = AtWait t2 c) /\
  exists new, w_trace w' = w_trace w ++ new /\
              launch_times_from x new = [t2] /\ last_now x new = t2.
Proof.
  intros Hp Hstop Hrun t2.
  destruct (Run_head_step p d lastStart w Hp Hstop)
    as (pc0 & w0 & rest & Hrun0 & Htr & Hq & _ & _ & Hnow & Hpc).
  rewrite Hrun in Hrun0. injection Hrun0 as <- <-.
  split; [exact Hnow |].
  split; [destruct Hpc as [[-> _] | [-> _]]; eauto |].
  destruct (timeless_quiet t2 rest Hq) as [Hl Hn].
  destruct (throttled_trace (log d) lastStart w) as (pre & Hpre & _ & Hx).
  destruct (Hx x) as [Hlx Hnx]. fold t2 in Hnx. clearbody t2.
  eexists. split; [rewrite Htr, Hpre, <- !app_assoc; reflexivity |].
  rewrite launch_times_from_app, last_now_app, Hlx, Hnx.
  cbn [app launch_times_from last_now]. rewrite Hl, Hn.
  split; reflexivity.
Qed.

(** From a point where [lastStart] is not in the future, every later launch
    keeps its distance: from [lastStart], and from the launch before it. *)
Lemma Run_steps_spaced (n p : nat) :
  forall (pc : RunPc) (w : World) (lastStart : Time),
    (pc = AtLoop lastStart \/ exists c, pc = AtWait lastStart c) ->
    lastStart <= w_now w ->
    exists new,
      w_trace (snd (Run_steps E n p pc w)) = w_trace w ++ new /\
      spaced MinRestart (lastStart :: launch_times_from lastStart new) = true.
Proof.
  induction n as [|n IH]; intros pc w ls Hpc Hle.
  { exists []. now rewrite app_nil_r. }
  cbn [Run_steps].
  destruct (Run_step E p pc w) as [[pc' w']|] eqn:Hstep;
    [| exists []; now rewrite app_nil_r].
  destruct Hpc as [-> | [c ->]]; cbn [Run_step] in Hstep.
  - pose proof Hstep as Hsplit. rewrite Run_head_split in Hsplit.
    destruct (w_heap w !! p) as [d|] eqn:Hp; [| discriminate].
    destruct (stop d) eqn:Hstop.
    + injection Hsplit as <- <-. rewrite Run_steps_Returned.
      exists []. now rewrite app_nil_r.
    + clear Hsplit.
      destruct (Run_head_launch_times p d ls ls w w' pc' Hp Hstop Hstep)
        as (Hnow & Hpc' & new1 & Htr1 & Hl1 & Hn1).
      pose proof (throttled_gap (log d) ls w Hle) as Hgap.
      set (t2 := fst (throttled E (log d) ls w)) in *.
      destruct (IH pc' w' t2 Hpc' ltac:(lia)) as (new2 & Htr2 & Hsp2).
      exists (new1 ++ new2). rewrite Htr2, Htr1, <- app_assoc.
      split; [reflexivity |].
      rewrite launch_times_from_app, Hl1, Hn1. cbn [app].
      now apply spaced_cons.
  - destruct (Run_wait_step p ls c w w' pc' Hstep)
      as (-> & Hnow & _ & rest & Htr1 & Hq & _).
    destruct (IH (AtLoop ls) w' ls ltac:(now left) ltac:(lia)) as (new2 & Htr2 & Hsp2).
    destruct (timeless_quiet ls rest Hq) as [Hl Hn].
    exists (rest ++ new2). rewrite Htr2, Htr1, <- app_assoc.
    split; [reflexivity |].
    rewrite launch_times_from_app, Hl, Hn. exact Hsp2.
Qed.

(** The same from the start of [Run], whatever the clock says. *)
Lemma Run_spaced (n p : nat) (w : World) :
  exists new,
    w_trace (snd (Run E n p w)) = w_trace w ++ new /\
    spaced MinRestart (launch_times new) = true.
Proof.
  unfold Run, launch_times. destruct n as [|n].
  { exists []. now rewrite app_nil_r. }
  cbn [Run_steps].
  destruct (Run_step E p (AtLoop zeroTime) w) as [[pc' w']|] eqn:Hstep;
    [| exists []; now rewrite app_nil_r].
  cbn [Run_step] in Hstep.
  pose proof Hstep as Hsplit. rewrite Run_head_split in Hsplit.
  destruct (w_heap w !! p) as [d|] eqn:Hp; [| discriminate].
  destruct (stop d) eqn:Hstop.
  - injection Hsplit as <- <-. rewrite Run_steps_Returned.
    exists []. now rewrite app_nil_r.
  - clear Hsplit.
    destruct (Run_head_launch_times p d zeroTime zeroTime w w' pc' Hp Hstop Hstep)
      as (Hnow & Hpc' & new1 & Htr1 & Hl1 & Hn1).
    set (t2 := fst (throttled E (log d) zeroTime w)) in *.
    destruct (Run_steps_spaced n p pc' w' t2 Hpc' ltac:(lia)) as (new2 & Htr2 & Hsp2).
    exists (new1 ++ new2). rewrite Htr2, Htr1, <- app_assoc.
    split; [reflexivity |].
    rewrite launch_times_from_app, Hl1, Hn1. exact Hsp2.
Qed.

Lemma Run_wait_returns (p : nat) (lastStart : Time) (c : nat) (w : World) :
  env_exit E c <> None ->
  is_Some (w_cmds w !! c) -> is_Some (w_heap w !! p) ->
  exists pc w', Run_wait E p lastStart c w = Some (pc, w').
Proof.
  intros Hex [x Hc] [d Hp].
  unfold Run_wait, bind, Cmd_Wait, load, ProcessState_String, Stream_Shout,
    emit, ret, proc_state, set_proc.
  rewrite Hc; cbn.
  destruct (c_state x) as [| |i|i] eqn:Hst; cbn.
  - rewrite Hp; cbn. rewrite Hc; cbn. rewrite Hst. eauto.
  - destruct (env_exit E c) as [i|]; [| congruence].
    destruct (ei_err i); cbn; [| eauto].
    rewrite Hp; cbn.
    rewrite list_lookup_insert_eq by (eapply lookup_lt_Some; eassumption). cbn. eauto.
  - destruct (ei_err i); cbn; [| eauto].
    rewrite Hp; cbn.
    rewrite list_lookup_insert_eq by (eapply lookup_lt_Some; eassumption). cbn. eauto.
  - rewrite Hp; cbn. rewrite Hc; cbn. rewrite Hst. eauto.
Qed.

(** While nobody stops the daemon and its processes end, the loop goes
    on: every step is taken, a step from the loop condition launches one
    command, and a step from [Wait] leads back to the loop condition. *)
Lemma Run_step_running (p : nat) (pc : RunPc) (w : World) :
  (forall c, env_exit E c <> None) ->
  running p pc w ->
  exists pc' w' new,
    Run_step E p pc w = Some (pc', w') /\ running p pc' w' /\
    w_trace w' = w_trace w ++ new /\
    match pc with
    | AtLoop _ => length (spawned new) = 1%nat
    | AtWait _ _ => spawned new = [] /\ exists lastStart, pc' = AtLoop lastStart
    | Returned => False
    end.
Proof.
  intros Hex [(d & Hp & Hstop) Hpc].
  destruct pc as [ls | ls c |]; [| | contradiction]; cbn [Run_step].
  - destruct (Run_head_step p d ls w Hp Hstop)
      as (pc' & w' & rest & Hrun & Htr & _ & _ & Hsp & _ & Hpc').
    destruct (throttled_trace (log d) ls w) as (pre & Hpre & Hsp0 & _).
    exists pc', w'. eexists. split; [exact Hrun |].
    split; [| split].
    + destruct Hpc' as [[-> Hh] | (-> & Hh & Hlive)]; split; try exact I.
      * exists d. now rewrite Hh.
      * exists (set_cmd (Some (length (w_cmds w))) d). rewrite Hh.
        split; [| exact Hstop].
        apply list_lookup_insert_eq. eapply lookup_lt_Some; eassumption.
      * unfold proc_state in Hlive.
        destruct (w_cmds w' !! length (w_cmds w)); [eauto | discriminate].
    + rewrite Htr, Hpre, <- !app_assoc. reflexivity.
    + rewrite spawned_app, Hsp0. cbn. now rewrite Hsp.
  - destruct (Run_wait_returns p ls c w (Hex c) Hpc ltac:(eauto)) as (pc' & w' & Hrun).
    destruct (Run_wait_step p ls c w w' pc' Hrun) as (-> & _ & Hh & rest & Htr & _ & Hsp).
    exists (AtLoop ls), w', rest. split; [exact Hrun |].
    split; [split; [exists d; now rewrite Hh | exact I] |].
    split; [exact Htr |]. split; [exact Hsp | eauto].
Qed.

(** So after [2 * n] steps at least [n] commands were launched. *)
Lemma Run_steps_unbounded (p : nat) :
  (forall c, env_exit E c <> None) ->
  forall (n : nat) (pc : RunPc) (w : World),
    running p pc w ->
    exists new,
      w_trace (snd (Run_steps E (2 * n) p pc w)) = w_trace w ++ new /\
      (n <= length (spawned new))%nat.
Proof.
  intros Hex. induction n as [|n IH]; intros pc w Hrun.
  { exists []. cbn. now rewrite app_nil_r. }
  replace (2 * S n)%nat with (S (S (2 * n))) by lia.
  destruct (Run_step_running p pc w Hex Hrun) as (pc1 & w1 & new1 & Hs1 & Hr1 & Ht1 & Hc1).
  destruct (Run_step_running p pc1 w1 Hex Hr1) as (pc2 & w2 & new2 & Hs2 & Hr2 & Ht2 & Hc2).
  destruct (IH pc2 w2 Hr2) as (new3 & Ht3 & Hc3).
  cbn [Run_steps]. rewrite Hs1, Hs2.
  exists (new1 ++ new2 ++ new3). rewrite Ht3, Ht2, Ht1, <- !app_assoc.
  split; [reflexivity |]. rewrite !spawned_app, !length_app.
  destruct pc as [ls | ls c |]; [lia | | contradiction].
  destruct Hc1 as [_ [ls' ->]]. lia.
Qed.

(** C4: the launches of a daemon's [Run] loop are at least [MinRestart]
    apart, after any number of steps; when less than [MinRestart] has passed
    since the last launch, the loop sleeps for what is left of it before it
    launches again; and the loop has no bound on its launches: as long as
    the daemon is not stopped and its processes end, [2 * n] steps make at
    least [n] launches, for every [n]. *)
Theorem Run_throttles_restarts :
  forall (p : nat) (w : World),
    (forall n, exists new,
        w_trace (snd (Run E n p w)) = w_trace w ++ new /\
        spaced MinRestart (launch_times new) = true) /\
    (forall d lastStart,
        w_heap w !! p = Some d -> stop d = false -> lastStart <= w_now w ->
        let t1 := w_now w + Z.of_N (env_elapse E (w_ticks w)) in
        t1 - lastStart < MinRestart ->
        exists pc w' t2 rest,
          Run_step E p (AtLoop lastStart) w = Some (pc, w') /\
          w_trace w' = w_trace w
                        ++ [LogHeader (log d); EvNow t1;
                            EvSleep (MinRestart - (t1 - lastStart)); EvNow t2]
                        ++ rest /\
          spawned rest = [(getShell, ["-c"; Daemon_Command (conf d)])] /\
          lastStart + MinRestart <= t2) /\
    ((forall c, env_exit E c <> None) ->
     forall d, w_heap w !! p = Some d -> stop d = false ->
     forall n, exists new,
        w_trace (snd (Run E (2 * n) p w)) = w_trace w ++ new /\
        (n <= length (launch_times new))%nat).
Proof.
  intros p w. split; [| split].
  - intros n. apply Run_spaced.
  - intros d ls Hp Hstop Hle t1 Hlt.
    destruct (Run_head_step p d ls w Hp Hstop)
      as (pc & w' & rest & Hrun & Htr & _ & _ & Hsp & _ & _).
    exists pc, w', (fst (throttled E (log d) ls w)). eexists.
    split; [exact Hrun |]. split; [| split].
    + rewrite Htr, (throttled_sleeps_rest (log d) ls w Hle Hlt), <- app_assoc.
      reflexivity.
    + cbn. rewrite Hsp. reflexivity.
    + now apply throttled_gap.
  - intros Hex d Hp Hstop n.
    destruct (Run_steps_unbounded p Hex n (AtLoop zeroTime) w) as (new & Htr & Hn).
    { split; [eauto | exact I]. }
    exists new. split; [exact Htr |].
    unfold launch_times. now rewrite length_launch_times_from.
Qed.

(** C10: the first iteration of [Run] starts with [lastStart] the zero
    Time; with the clock at least [MinRestart] past the zero Time, it
    launches its command without any sleep. *)
Theorem Run_first_iteration_no_sleep :
  forall (p : nat) (d : daemon) (w : World),
    w_heap w !! p = Some d -> stop d = false ->
    MinRestart <= w_now w ->
    exists pc w' new,
      Run E 1 p w = (pc, w') /\
      w_trace w' = w_trace w ++ new /\
      sleeps new = [] /\
      spawned new = [(getShell, ["-c"; Daemon_Command (conf d)])].
Proof.
  intros p d w Hp Hstop Hnow.
  destruct (Run_head_step p d zeroTime w Hp Hstop)
    as (pc & w' & rest & Hrun & Htr & _ & Hsl & Hsp & _ & _).
  exists pc, w'. eexists.
  unfold Run. cbn [Run_steps Run_step]. rewrite Hrun.
  split; [reflexivity |].
  rewrite Htr, (throttled_first (log d) w Hnow), <- app_assoc.
  split; [reflexivity |].
  rewrite sleeps_app, spawned_app. cbn. rewrite Hsl, Hsp. split; reflexivity.
Qed.

End RestartLoop.

(** The theorem at a daemon whose command exits at once with status 1: six
    steps are three launches, one second apart. *)
Lemma Run_throttles_restarts_witness :
  exists new,
    w_trace (snd (Run env_fails 6 0 world1)) = w_trace world1 ++ new /\
    (3 <= length (launch_times new))%nat.
Proof.
  destruct (Run_throttles_restarts env_fails 0%nat world1) as (_ & _ & Hmany).
  apply (Hmany ltac:(discriminate) a_daemon eq_refl eq_refl 3%nat).
Defined.

(** The theorem at a freshly started daemon. *)
Lemma Run_first_iteration_no_sleep_witness :
  exists pc w' new,
    Run env_ok 1 0 world1 = (pc, w') /\
    w_trace w' = w_trace world1 ++ new /\
    sleeps new = [] /\
    spawned new = [("/bin/sh", ["-c"; "devd -m ./public"])].
Proof.
  apply (Run_first_iteration_no_sleep env_ok 0%nat a_daemon world1 eq_refl eq_refl).
  vm_compute. discriminate.
Defined.

(** ** Starting the pen *)

Section PenStart.

(** The loop of [Start], with [done] the daemons made so far. *)
Lemma Start_loop (log : TermLog) (H : list daemon) (rest : list Daemon) :
  forall (done : list daemon) now ticks tr cmds tasks,
    for_each (imap (fun i dmn => (length done + i, dmn)%nat) rest)
      (fun '(i, dmn) =>
         store (length H + i) (new_daemon log dmn) ;;
         go (GoRun (length H + i)))
      (mkWorld now ticks tr cmds (H ++ done ++ replicate (length rest) zero_daemon) tasks)
    = Some (tt,
            mkWorld now ticks tr cmds (H ++ done ++ map (new_daemon log) rest)
              (tasks ++ map GoRun (seq (length H + length done) (length rest)))).
Proof.
  induction rest as [|dmn rest IH]; intros done now ticks tr cmds tasks.
  - cbn. unfold ret. now rewrite !app_nil_r.
  - cbn [imap for_each length replicate map seq].
    unfold bind at 1. unfold bind at 1. unfold store at 1. cbn [w_heap].
    assert (Hlook : (H ++ done ++ zero_daemon :: replicate (length rest) zero_daemon)
                      !! (length H + (length done + 0))%nat = Some zero_daemon).
    { rewrite Nat.add_0_r, app_assoc, <- length_app. apply list_lookup_middle. reflexivity. }
    rewrite Hlook. unfold go, set_heap, set_tasks. cbn.
    assert (Hins : <[(length H + (length done + 0))%nat := new_daemon log dmn]>
                     (H ++ done ++ zero_daemon :: replicate (length rest) zero_daemon)
                   = H ++ (done ++ [new_daemon log dmn])
                       ++ replicate (length rest) zero_daemon).
    { rewrite Nat.add_0_r, (app_assoc H done), <- length_app.
      rewrite (insert_app_r_alt (H ++ done)) by lia.
      rewrite Nat.sub_diag. cbn. rewrite <- !app_assoc. reflexivity. }
    rewrite Hins.
    erewrite (imap_ext _ (fun i dmn0 => (length (done ++ [new_daemon log dmn]) + i, dmn0)%nat));
      [| intros i x _; unfold compose; rewrite length_app; cbn; f_equal; lia].
    rewrite IH. rewrite <- !app_assoc, length_app. cbn.
    replace (length H + (length done + 1))%nat with (S (length H + length done)) by lia.
    replace (length H + (length done + 0))%nat with (length H + length done)%nat by lia.
    reflexivity.
Qed.

(** [Start] on an unlocked pen: one new daemon per specification, none with
    a command or stopped, each with its goroutine, and the pen holds the
    slice of them. *)
Lemma DaemonPen_Start_eq (dp : DaemonPen) (specs : list Daemon) (log : TermLog) (w : World) :
  locked dp = false ->
  DaemonPen_Start dp specs log w =
  Some (mkDaemonPen (Some (mkSlice (length (w_heap w)) (length specs))) false,
        set_tasks (w_tasks w ++ map GoRun (seq (length (w_heap w)) (length specs)))
          (set_heap (w_heap w ++ map (new_daemon log) specs) w)).
Proof.
  intros Hl. destruct w as [now ticks tr cmds heap tasks].
  unfold DaemonPen_Start, Lock. rewrite Hl.
  unfold bind at 1. unfold ret at 1. unfold bind at 1.
  unfold make_daemons, set_heap. cbn [w_heap w_now w_ticks w_trace w_cmds w_tasks sl_base].
  unfold bind at 1.
  pose proof (Start_loop log heap specs [] now ticks tr cmds tasks) as Hloop.
  cbn [length app Nat.add] in Hloop. rewrite Nat.add_0_r in Hloop.
  change (fun (i : nat) (dmn : Daemon) => (i, dmn))
    with (fun (i : nat) (dmn : Daemon) => ((0 + i)%nat, dmn)).
  unfold new_daemon in Hloop at 1. cbn [Nat.add]. rewrite Hloop.
  reflexivity.
Qed.

(** The daemons that [Start] makes hold no command and are not stopped. *)
Lemma DaemonPen_Start_daemons (dp : DaemonPen) (specs : list Daemon) (log : TermLog)
    (w : World) :
  locked dp = false ->
  exists dp' w',
    DaemonPen_Start dp specs log w = Some (dp', w') /\
    daemons dp' = Some (mkSlice (length (w_heap w)) (length specs)) /\
    forall i dmn,
      specs !! i = Some dmn ->
      exists d, w_heap w' !! (length (w_heap w) + i)%nat = Some d /\
                conf d = dmn /\ cmd d = None /\ stop d = false.
Proof.
  intros Hl. rewrite (DaemonPen_Start_eq dp specs log w Hl).
  do 2 eexists. split; [reflexivity |]. split; [reflexivity |].
  intros i dmn Hi. exists (new_daemon log dmn).
  split; [| repeat split].
  cbn. rewrite lookup_app_r by lia.
  replace (length (w_heap w) + i - length (w_heap w))%nat with i by lia.
  rewrite list_lookup_fmap, Hi. reflexivity.
Qed.

End PenStart.

(** ** Restart and Shutdown of one daemon *)

Section Signals.

Variable E : Env.

(** [Shutdown], case by case on the daemon's command and its process. *)
Lemma daemon_Shutdown_cases (p : nat) (sig : Signal) (d : daemon) (w : World) :
  w_heap w !! p = Some d ->
  let w1 := set_heap (<[p := set_stop true d]> (w_heap w)) w in
  let done (delivered : bool) (st : ProcState) (c : nat) :=
    Some (tt, set_trace (w_trace w ++ [EvSignal c sig delivered; EvWait c])
                (set_proc c st w1)) in
  daemon_Shutdown E p sig w =
  match cmd d with
  | None => Some (tt, w1)
  | Some c =>
      match proc_state c w with
      | Some NotStarted | None => None
      | Some Live =>
          match env_signal E c sig with
          | Some i => done true (Exited i) c
          | None =>
              match env_exit E c with
              | Some i => done true (Exited i) c
              | None => None
              end
          end
      | Some (Dying i) => done true (Exited i) c
      | Some (Exited i) => done false (Exited i) c
      end
  end.
Proof.
  intros Hp. pose proof (lookup_lt_Some _ _ _ Hp) as Hlt.
  destruct w as [now ticks tr cmds heap tasks].
  cbn [w_heap w_trace] in *.
  unfold daemon_Shutdown, bind, load, store, ret, Process_Signal, Cmd_Wait,
    proc_state, set_proc, set_heap, set_trace, set_cmds. cbn.
  rewrite Hp. cbn. rewrite Hp. cbn.
  rewrite list_lookup_insert_eq by exact Hlt. cbn.
  destruct (cmd d) as [c|]; cbn; [| reflexivity].
  destruct (cmds !! c) as [x|] eqn:Hc; cbn; [| reflexivity].
  pose proof (lookup_lt_Some _ _ _ Hc) as Hltc.
  destruct (c_state x) as [| |i|i] eqn:Hst; cbn.
  - reflexivity.
  - destruct (env_signal E c sig) as [i|]; cbn.
    + rewrite list_lookup_insert_eq by exact Hltc. cbn.
      rewrite list_insert_insert_eq, <- app_assoc. reflexivity.
    + rewrite Hc; cbn. rewrite Hst. destruct (env_exit E c) as [i|]; [| reflexivity].
      cbn. rewrite <- app_assoc. reflexivity.
  - rewrite Hc; cbn. rewrite Hst. cbn. rewrite <- app_assoc. reflexivity.
  - rewrite Hc; cbn. rewrite Hst. cbn. rewrite <- app_assoc.
    rewrite (list_insert_id cmds c); [reflexivity |].
    rewrite Hc. destruct x; cbn in *; congruence.
Qed.

(** [Restart], case by case. *)
Lemma daemon_Restart_cases (p : nat) (d : daemon) (w : World) :
  w_heap w !! p = Some d ->
  let sig := RestartSignal (conf d) in
  let sent (delivered : bool) (c : nat) (w1 : World) :=
    Some (tt, set_trace (w_trace w ++ [LogHeader (log d); EvSignal c sig delivered]) w1) in
  daemon_Restart E p w =
  match cmd d with
  | None => Some (tt, w)
  | Some c =>
      match proc_state c w with
      | Some NotStarted | None => None
      | Some Live =>
          match env_signal E c sig with
          | Some i => sent true c (set_proc c (Dying i) w)
          | None => sent true c w
          end
      | Some (Dying _) => sent true c w
      | Some (Exited _) => sent false c w
      end
  end.
Proof.
  intros Hp.
  destruct w as [now ticks tr cmds heap tasks].
  cbn [w_heap w_trace] in *.
  unfold daemon_Restart, bind, load, ret, Stream_Header, emit, Process_Signal,
    proc_state, set_proc, set_heap, set_trace, set_cmds. cbn.
  rewrite Hp. cbn.
  destruct (cmd d) as [c|]; cbn; [| reflexivity].
  destruct (cmds !! c) as [x|] eqn:Hc; cbn; [| reflexivity].
  destruct (c_state x) as [| |i|i] eqn:Hst; cbn; try reflexivity.
  - destruct (env_signal E c _) as [i|]; cbn; rewrite <- app_assoc; reflexivity.
  - rewrite <- app_assoc; reflexivity.
  - rewrite <- app_assoc; reflexivity.
Qed.

(** [Shutdown] writes one daemon variable, its receiver, and there only
    the stop flag. *)
Lemma daemon_Shutdown_heap (p : nat) (sig : Signal) (d : daemon) (w w' : World) u :
  w_heap w !! p = Some d ->
  daemon_Shutdown E p sig w = Some (u, w') ->
  w_heap w' = <[p := set_stop true d]> (w_heap w).
Proof.
  intros Hp.
  rewrite (daemon_Shutdown_cases p sig d w Hp). cbv zeta.
  destruct (cmd d) as [c|]; [| now intros [= <- <-]].
  assert (Hheap : forall tr st,
             w_heap (set_trace tr (set_proc c st
                       (set_heap (<[p := set_stop true d]> (w_heap w)) w)))
             = <[p := set_stop true d]> (w_heap w)).
  { intros tr st. unfold set_proc. cbn. destruct (w_cmds w !! c); reflexivity. }
  destruct (proc_state c w) as [[| |i|i]|]; try discriminate.
  - destruct (env_signal E c sig) as [i|]; [intros [= <- <-]; apply Hheap |].
    destruct (env_exit E c) as [i|]; [intros [= <- <-]; apply Hheap | discriminate].
  - intros [= <- <-]; apply Hheap.
  - intros [= <- <-]; apply Hheap.
Qed.

(** C6: on a daemon that holds a running process, a [Shutdown] that returns
    has delivered the signal to that process and then waited for it: its
    events are the signal and then the wait, and the process has ended, by
    the signal or on its own.  [Shutdown] does not return exactly when the
    process neither dies of the signal nor ends on its own. *)
Theorem Shutdown_waits_for_exit :
  forall (p : nat) (sig : Signal) (d : daemon) (c : nat) (w : World),
    w_heap w !! p = Some d -> cmd d = Some c ->
    proc_state c w = Some Live ->
    (forall u w',
        daemon_Shutdown E p sig w = Some (u, w') ->
        w_trace w' = w_trace w ++ [EvSignal c sig true; EvWait c] /\
        exists i,
          proc_state c w' = Some (Exited i) /\
          (env_signal E c sig = Some i \/
           (env_signal E c sig = None /\ env_exit E c = Some i))) /\
    (daemon_Shutdown E p sig w = None <->
     env_signal E c sig = None /\ env_exit E c = None).
Proof.
  intros p sig d c w Hp Hcmd Hlive.
  rewrite (daemon_Shutdown_cases p sig d w Hp). cbv zeta. rewrite Hcmd, Hlive.
  assert (Hdone : forall i,
             proc_state c (set_trace (w_trace w ++ [EvSignal c sig true; EvWait c])
                             (set_proc c (Exited i)
                                (set_heap (<[p := set_stop true d]> (w_heap w)) w)))
             = Some (Exited i)).
  { intros i. unfold proc_state in *. unfold set_proc. cbn.
    destruct (w_cmds w !! c) as [x|] eqn:Hc; [| discriminate]. cbn.
    rewrite list_lookup_insert_eq by (eapply lookup_lt_Some; eassumption).
    reflexivity. }
  split.
  - intros u w'.
    destruct (env_signal E c sig) as [i|].
    + intros [= <- <-]. split; [reflexivity |]. exists i. split; [apply Hdone | now left].
    + destruct (env_exit E c) as [i|]; [| discriminate].
      intros [= <- <-]. split; [reflexivity |]. exists i.
      split; [apply Hdone | now right].
  - destruct (env_signal E c sig) as [i|]; [split; [discriminate | intros [? _]; discriminate] |].
    destruct (env_exit E c) as [i|]; [split; [discriminate | intros [_ ?]; discriminate] |].
    split; auto.
Qed.

(** C5, as the code has it: [Restart] on a daemon without a command does
    nothing at all, and a daemon has no command when [Start] has made it.
    The command is set by an iteration of [Run] that has started a process,
    and nothing ever takes it away: a failed launch, the end of an iteration,
    [Shutdown] and [Restart] all leave it in place.  [Restart] on a daemon
    with a started command logs a header and signals that command; the
    signal reaches the process only while that is alive. *)
Theorem Restart_noop_without_command :
  (forall p d w,
      w_heap w !! p = Some d -> cmd d = None ->
      daemon_Restart E p w = Some (tt, w)) /\
  (forall dp specs log w,
      locked dp = false ->
      exists dp' w',
        DaemonPen_Start dp specs log w = Some (dp', w') /\
        daemons dp' = Some (mkSlice (length (w_heap w)) (length specs)) /\
        forall i dmn,
          specs !! i = Some dmn ->
          exists d, w_heap w' !! (length (w_heap w) + i)%nat = Some d /\
                    conf d = dmn /\ cmd d = None /\ stop d = false) /\
  (forall p d lastStart w pc w',
      w_heap w !! p = Some d -> stop d = false ->
      Run_head E p lastStart w = Some (pc, w') ->
      (w_heap w' = w_heap w /\ exists t, pc = AtLoop t) \/
      (exists t c,
          pc = AtWait t c /\
          w_heap w' = <[p := set_cmd (Some c) d]> (w_heap w) /\
          proc_state c w' = Some Live)) /\
  (forall p lastStart c w pc w',
      Run_wait E p lastStart c w = Some (pc, w') -> w_heap w' = w_heap w) /\
  (forall p sig d w u w',
      w_heap w !! p = Some d ->
      daemon_Shutdown E p sig w = Some (u, w') ->
      w_heap w' = <[p := set_stop true d]> (w_heap w)) /\
  (forall p d w u w',
      w_heap w !! p = Some d ->
      daemon_Restart E p w = Some (u, w') -> w_heap w' = w_heap w) /\
  (forall p d c st w,
      w_heap w !! p = Some d -> cmd d = Some c ->
      proc_state c w = Some st -> st <> NotStarted ->
      exists w',
        daemon_Restart E p w = Some (tt, w') /\
        w_trace w' = w_trace w ++ [LogHeader (log d);
                                   EvSignal c (RestartSignal (conf d)) (alive st)]).
Proof.
  split; [| split; [| split; [| split; [| split; [| split]]]]].
  - intros p d w Hp Hcmd.
    rewrite (daemon_Restart_cases p d w Hp). cbv zeta. now rewrite Hcmd.
  - intros dp specs log w Hl. now apply DaemonPen_Start_daemons.
  - intros p d ls w pc w' Hp Hstop Hrun.
    destruct (Run_head_step E p d ls w Hp Hstop)
      as (pc0 & w0 & rest & Hrun0 & _ & _ & _ & _ & _ & Hpc).
    rewrite Hrun in Hrun0. injection Hrun0 as <- <-.
    destruct Hpc as [[-> Hh] | (-> & Hh & Hlive)]; [left | right]; eauto.
  - intros p ls c w pc w' Hrun.
    now destruct (Run_wait_step E p ls c w w' pc Hrun) as (_ & _ & Hh & _).
  - intros p sig d w u w' Hp Hrun. exact (daemon_Shutdown_heap p sig d w w' u Hp Hrun).
  - intros p d w u w' Hp.
    rewrite (daemon_Restart_cases p d w Hp). cbv zeta.
    destruct (cmd d) as [c|]; [| now intros [= <- <-]].
    destruct (proc_state c w) as [[| |i|i]|]; try discriminate.
    + destruct (env_signal E c _) as [i|]; intros [= <- <-]; [| reflexivity].
      unfold set_proc. cbn. destruct (w_cmds w !! c); reflexivity.
    + now intros [= <- <-].
    + now intros [= <- <-].
  - intros p d c st w Hp Hcmd Hst Hne.
    rewrite (daemon_Restart_cases p d w Hp). cbv zeta. rewrite Hcmd, Hst.
    destruct st as [| |i|i]; [congruence | | |].
    + destruct (env_signal E c _) as [i|]; eexists; (split; [reflexivity |]).
      * unfold set_proc. cbn. destruct (w_cmds w !! c); reflexivity.
      * reflexivity.
    + eexists; split; reflexivity.
    + eexists; split; reflexivity.
Qed.

End Signals.

(** The theorem at the running daemon of [world_running] and SIGTERM. *)
Lemma Shutdown_waits_for_exit_witness :
  w_trace world_shut = w_trace world_running ++ [EvSignal 0 SIGTERM true; EvWait 0] /\
  proc_state 0 world_shut = Some (Exited killed).
Proof.
  destruct (Shutdown_waits_for_exit env_ok 0%nat SIGTERM
              (set_cmd (Some 0%nat) a_daemon) 0%nat world_running
              eq_refl eq_refl eq_refl) as [Hret _].
  destruct (Hret tt world_shut eq_refl) as [Htr _].
  split; [exact Htr | reflexivity].
Defined.

(** C5 as stated fails after a shutdown: the daemon of [world_shut] has
    been shut down and its process has ended, yet it still holds the
    command, and [Restart] logs a header and signals. *)
Lemma Restart_after_Shutdown_logs_header :
  daemon_Shutdown env_ok 0 SIGTERM world_running = Some (tt, world_shut) /\
  proc_state 0 world_shut = Some (Exited killed) /\
  (cmd <$> w_heap world_shut !! 0%nat) = Some (Some 0%nat) /\
  (w_trace ∘ snd <$> daemon_Restart env_ok 0 world_shut) =
    Some (w_trace world_shut ++ [LogHeader (log a_daemon); EvSignal 0 SIGHUP false]).
Proof. repeat split. Qed.

(** The theorem at the daemon of [world1], which has no command yet. *)
Lemma Restart_noop_without_command_witness :
  daemon_Restart env_ok 0 world1 = Some (tt, world1).
Proof.
  destruct (Restart_noop_without_command env_ok) as (Hnoop & _).
  apply (Hnoop 0%nat a_daemon world1 eq_refl eq_refl).
Defined.


(** ** Shutting the pen down *)

Section PenShutdown.

Variable E : Env.

(** The loop of [for _, d := range ... { d.Shutdown(sig) }]: it writes the
    variable [d] and no other. *)
Lemma range_Shutdown_frame (sig : Signal) (base dvar : nat) (l : list nat) :
  forall (w w' : World) u,
    for_each l
      (fun i => x <- load (base + i) ;; store dvar x ;; daemon_Shutdown E dvar sig) w
    = Some (u, w') ->
    length (w_heap w') = length (w_heap w) /\
    forall j, j <> dvar -> w_heap w' !! j = w_heap w !! j.
Proof.
  induction l as [|i l IH]; intros w w' u.
  - intros [= <- <-]. split; reflexivity.
  - cbn [for_each]. unfold bind at 1. unfold bind at 1. unfold load at 1.
    destruct (w_heap w !! (base + i)%nat) as [x|]; [| discriminate].
    unfold bind at 1. unfold store at 1.
    destruct (w_heap w !! dvar) as [y|] eqn:Hd; [| discriminate].
    pose proof (lookup_lt_Some _ _ _ Hd) as Hlt.
    destruct (daemon_Shutdown E dvar sig _) as [[u1 w1]|] eqn:Hshut; [| discriminate].
    intros Hrest.
    assert (Hx : w_heap (set_heap (<[dvar := x]> (w_heap w)) w) !! dvar = Some x).
    { cbn. now apply list_lookup_insert_eq. }
    pose proof (daemon_Shutdown_heap E dvar sig x _ w1 u1 Hx Hshut) as Hh1.
    cbn [w_heap set_heap] in Hh1.
    destruct (IH w1 w' u Hrest) as [Hlen Hsame].
    split.
    + rewrite Hlen, Hh1, !length_insert. reflexivity.
    + intros j Hj. rewrite (Hsame j Hj), Hh1.
      rewrite !list_lookup_insert_ne by congruence. reflexivity.
Qed.

(** So [DaemonPen.Shutdown] leaves every daemon variable that existed as it
    was: the daemons of the pen's slice among them, with their stop
    flags. *)
Lemma DaemonPen_Shutdown_frame (dp dp' : DaemonPen) (sig : Signal) (w w' : World) :
  DaemonPen_Shutdown E dp sig w = Some (dp', w') ->
  forall j, (j < length (w_heap w))%nat -> w_heap w' !! j = w_heap w !! j.
Proof.
  unfold DaemonPen_Shutdown, Lock, Unlock.
  destruct (locked dp); [discriminate |].
  unfold bind at 1. unfold ret at 1. cbn [daemons].
  unfold bind at 1.
  destruct (daemons dp) as [s|].
  - unfold range_values, bind at 1, alloc.
    destruct (for_each _ _ _) as [[u w1]|] eqn:Hloop; [| discriminate].
    intros [= _ <-] j Hj.
    destruct (range_Shutdown_frame sig (sl_base s) _ _ _ _ _ Hloop) as [_ Hsame].
    rewrite (Hsame j) by (cbn; lia).
    cbn. now rewrite lookup_app_l.
  - intros [= _ <-]. reflexivity.
Qed.

End PenShutdown.

(** C1 fails on the code.  A pen is started with one daemon, whose [Run]
    launches the command and waits; then the pen is shut down.  The signal
    is delivered and the process ends, but the stop flag that was set is
    that of the loop's copy (the variable at address 1): the daemon of the
    pen's slice (address 0) is still not stopped, and its [Run] launches the
    command again. *)
Theorem DaemonPen_Shutdown_misses_stop_flag :
  DaemonPen_Start pen0 specs1 the_log world0 = Some (pen1, pen_world_started) /\
  fst (Run env_ok 1 0 pen_world_started) = AtWait 63600000000000000010 0 /\
  DaemonPen_Shutdown env_ok pen1 SIGTERM pen_world_running
    = Some (pen1, pen_world_shut) /\
  proc_state 0 pen_world_shut = Some (Exited killed) /\
  (stop <$> w_heap pen_world_shut !! 0%nat) = Some false /\
  (stop <$> w_heap pen_world_shut !! 1%nat) = Some true /\
  spawned (w_trace (snd (Run_steps env_ok 2 0 (AtWait 63600000000000000010 0)
                           pen_world_shut)))
    = [("/bin/sh", ["-c"; "devd -m ./public"]);
       ("/bin/sh", ["-c"; "devd -m ./public"])].
Proof. repeat split. Qed.

(** ** The output streamer *)

Section Streamer.

Local Open Scope nat_scope.


Lemma IndexByte_Some_lt (l : list ascii) (b : ascii) (i : nat) :
  IndexByte l b = Some i -> i < length l.
Proof.
  revert i. induction l as [|x l IH]; cbn; [discriminate |]. intros i.
  destruct (Ascii.eqb x b); [intros [= <-]; lia |].
  destruct (IndexByte l b) as [j|]; [| discriminate].
  intros [= <-]. specialize (IH j eq_refl). lia.
Qed.


(** *** The four cases of ReadLine *)





(** Every successful [ReadLine] uses up input. *)
Lemma ReadLine_progress (r r' : Reader) (line : list ascii) (b : bool) :
  2 <= rd_size r ->
  ReadLine r = (line, b, None, r') ->
  length (rd_data r') < length (rd_data r) /\ rd_size r' = rd_size r.
Proof.
  intros Hn. unfold ReadLine.
  destruct (IndexByte (take (rd_size r) (rd_data r)) LF) as [i|] eqn:Hi.
  - intros [= _ _ <-]. cbn. split; [| reflexivity].
    apply IndexByte_Some_lt in Hi. rewrite length_take in Hi.
    rewrite length_drop. lia.
  - destruct (length (rd_data r) <? rd_size r) eqn:Hlt.
    + destruct (rd_data r) as [|x data]; [discriminate |].
      intros [= _ _ <-]. cbn. split; [lia | reflexivity].
    + apply Nat.ltb_ge in Hlt.
      destruct (ends_with _ CR); intros [= _ _ <-]; cbn;
        rewrite length_drop; split; try reflexivity; lia.
Qed.

(** *** The loop *)


(** More fuel than input changes nothing. *)
Lemma read_all_fuel (fuel1 fuel2 : nat) (r : Reader) :
  2 <= rd_size r ->
  length (rd_data r) < fuel1 -> length (rd_data r) < fuel2 ->
  read_all fuel1 r = read_all fuel2 r.
Proof.
  revert fuel2 r. induction fuel1 as [|fuel1 IH]; intros fuel2 r Hn H1 H2; [lia |].
  destruct fuel2 as [|fuel2]; [lia |]. cbn [read_all].
  destruct (ReadLine r) as [[[line b] [e|]] r'] eqn:Hread; [reflexivity |].
  destruct (ReadLine_progress r r' line b Hn Hread) as [Hlt Hsz].
  f_equal. apply IH; lia.
Qed.








End Streamer.


(** * Further properties *)

(** ** The header, again *)

Section HeaderStable.

Local Open Scope nat_scope.

Lemma ws_replace_length (s : string) (m : bool) :
  String.length (ws_ReplaceAllString_from m s " ") <= String.length s.
Proof.
  revert m. induction s as [|c s IH]; intros m; [reflexivity |].
  cbn [ws_ReplaceAllString_from].
  destruct (isSpace c); [destruct m; [| destruct (startsSpace s)] |].
  - specialize (IH true). cbn [String.length]. lia.
  - specialize (IH true). cbn [String.append String.length]. lia.
  - specialize (IH false). cbn [String.length]. lia.
  - specialize (IH false). cbn [String.length]. lia.
Qed.

(** X1: condensing the whitespace of a command never makes it longer, and
    doing it twice changes nothing more; so a command and its condensed
    form get the same header. *)
Theorem niceHeader_of_condensed :
  forall preamble inp : string,
    let c := ws_ReplaceAllString inp " " in
    ws_ReplaceAllString c " " = c /\
    String.length c <= String.length inp /\
    niceHeader preamble c = niceHeader preamble inp.
Proof.
  intros preamble inp c.
  assert (Hidem : ws_ReplaceAllString c " " = c).
  { apply ws_replace_keeps. apply ws_replace_no_pair. }
  split; [exact Hidem |]. split; [apply ws_replace_length |].
  unfold niceHeader. fold c. rewrite Hidem. reflexivity.
Qed.

End HeaderStable.

(** ** The runner and the sequencer, again *)

Section RunnerFrame.

Variable E : Env.

(** What [RunProc] leaves behind, whatever it returns: one more command,
    not running; the streamers, when both pipes were set up; and nothing
    else changed but the trace. *)
Lemma RunProc_frame (cmd : string) (log : Stream) (w w' : World) r :
  RunProc E cmd log w = Some (r, w') ->
  exists st,
    w_cmds w' = w_cmds w ++ [mkCmd getShell ["-c"; cmd] st] /\
    (st = NotStarted \/ exists i, st = Exited i) /\
    w_tasks w' = w_tasks w ++ attached E log (length (w_cmds w)) /\
    w_heap w' = w_heap w /\ w_now w' = w_now w /\ w_ticks w' = w_ticks w.
Proof.
  rewrite RunProc_cases. unfold attached.
  destruct (env_stdout_pipe E _);
    [intros [= <- <-]; eexists; repeat split; eauto |].
  destruct (env_stderr_pipe E _);
    [intros [= <- <-]; eexists; repeat split; eauto |].
  destruct (env_start E _);
    [intros [= <- <-]; eexists; repeat split; eauto |].
  destruct (env_exit E _) as [i|]; [| discriminate].
  destruct (ei_err i); intros [= <- <-]; eexists; repeat split; eauto.
Qed.


Variable log : TermLog.

(** X3: a [RunPreps] that returns leaves no process running: the commands
    it has created are those of the first preps, in order, each one never
    started or ended and reaped; the commands that existed before, the
    daemons and the clock are as they were. *)
Theorem RunPreps_leaves_no_process :
  forall (preps : list Prep) (w w' : World) (r : option error),
    RunPreps E preps log w = Some (r, w') ->
    exists (k : nat) (added : list Cmd),
      w_cmds w' = w_cmds w ++ added /\
      map cmdline_of added = map prep_cmdline (take k preps) /\
      forallb settled added = true /\
      w_heap w' = w_heap w /\ w_now w' = w_now w.
Proof.
  induction preps as [|p preps IH]; intros w w' r.
  - intros [= <- <-]. exists 0%nat, []. rewrite app_nil_r. repeat split.
  - rewrite RunPreps_cons.
    destruct (RunProc E _ _ w) as [[[e|] w1]|] eqn:Hp; [| | discriminate].
    + intros [= <- <-].
      destruct (RunProc_frame _ _ _ _ _ Hp) as (st & Hc & Hst & _ & Hh & Hn & _).
      exists 1%nat, [mkCmd getShell ["-c"; Prep_Command p] st].
      repeat split; try assumption.
      cbn. destruct Hst as [-> | [i ->]]; reflexivity.
    + intros Hrest.
      destruct (RunProc_frame _ _ _ _ _ Hp) as (st & Hc & Hst & _ & Hh & Hn & _).
      destruct (IH w1 w' r Hrest) as (k & added & Hc' & Hl & Hs & Hh' & Hn').
      exists (S k), (mkCmd getShell ["-c"; Prep_Command p] st :: added).
      rewrite Hc', Hc, <- app_assoc. cbn [app take map forallb].
      repeat split; try congruence.
      * rewrite Hl. reflexivity.
      * rewrite Hs. destruct Hst as [-> | [i ->]]; reflexivity.
Qed.

End RunnerFrame.


(** The theorem at three preps of which the second fails. *)
Lemma RunPreps_leaves_no_process_witness :
  exists w' k added,
    RunPreps env_second_fails [mkPrep "go generate"; mkPrep "go build"; mkPrep "go test"]
      the_log world0 = Some (Some (Err "exit status 1"), w') /\
    w_cmds w' = w_cmds world0 ++ added /\
    map cmdline_of added
      = map prep_cmdline (take k [mkPrep "go generate"; mkPrep "go build"; mkPrep "go test"]) /\
    forallb settled added = true.
Proof.
  assert (Hrun : exists w',
             RunPreps env_second_fails
               [mkPrep "go generate"; mkPrep "go build"; mkPrep "go test"]
               the_log world0 = Some (Some (Err "exit status 1"), w')).
  { eexists. lazy. reflexivity. }
  destruct Hrun as [w' Hrun].
  destruct (RunPreps_leaves_no_process env_second_fails the_log _ _ _ _ Hrun)
    as (k & added & Hc & Hl & Hs & _).
  exists w', k, added. repeat split; assumption.
Defined.

(** ** The restart loop, again *)

Section RestartLoopCases.

Variable E : Env.

(** The throttle logs nothing at high severity. *)
Lemma throttled_shouts (st : Stream) (lastStart : Time) (w : World) :
  exists pre,
    w_trace (snd (throttled E st lastStart w)) = w_trace w ++ pre /\
    shouts pre = [] /\ spawned pre = [] /\
    w_cmds (snd (throttled E st lastStart w)) = w_cmds w /\
    w_heap (snd (throttled E st lastStart w)) = w_heap w /\
    w_tasks (snd (throttled E st lastStart w)) = w_tasks w.
Proof.
  unfold throttled. cbn [snd w_trace w_cmds w_heap w_tasks].
  destruct (Time_Sub _ _ <? MinRestart); eexists; repeat split; reflexivity.
Qed.

(** [launch], case by case on what the system answers. *)
Lemma launch_cases (p : nat) (d d0 : daemon) (lastStart : Time) (w : World) :
  w_heap w !! p = Some d0 ->
  let c := length (w_cmds w) in
  let cmds st := w_cmds w ++ [mkCmd getShell ["-c"; Daemon_Command (conf d)] st] in
  let world tr cs h ts :=
    mkWorld (w_now w) (w_ticks w)
      (w_trace w ++ EvCommand c getShell ["-c"; Daemon_Command (conf d)] :: tr)
      cs h (w_tasks w ++ ts) in
  launch E p d lastStart w =
  match env_stdout_pipe E c with
  | Some e =>
      Some (AtLoop lastStart,
            world [EvStdoutPipe c; LogShout (log d) "%s" [ArgErr e]]
              (cmds NotStarted) (w_heap w) [])
  | None =>
  match env_stderr_pipe E c with
  | Some e =>
      Some (AtLoop lastStart,
            world [EvStdoutPipe c; EvStderrPipe c; LogShout (log d) "%s" [ArgErr e]]
              (cmds NotStarted) (w_heap w) [])
  | None =>
  match env_start E c with
  | Some e =>
      Some (AtLoop lastStart,
            world [EvStdoutPipe c; EvStderrPipe c; EvStart c;
                   LogShout (log d) "%s" [ArgErr e]]
              (cmds NotStarted) (w_heap w) (streamers (log d) c))
  | None =>
      Some (AtWait lastStart c,
            world [EvStdoutPipe c; EvStderrPipe c; EvStart c]
              (cmds Live) (<[p := set_cmd (Some c) d0]> (w_heap w))
              (streamers (log d) c))
  end end end.
Proof.
  intros Hp. destruct w as [now ticks tr cmds heap tasks].
  cbn [w_cmds w_now w_ticks w_trace w_heap w_tasks] in *.
  unfold launch, bind, exec_Command, Cmd_StdoutPipe, Cmd_StderrPipe,
    Stream_Shout, emit, ret, go, bind, set_trace, set_cmds, set_tasks. cbn.
  destruct (env_stdout_pipe E _) as [e|]; cbn.
  { rewrite app_nil_r, <- !app_assoc. reflexivity. }
  destruct (env_stderr_pipe E _) as [e|]; cbn.
  { rewrite app_nil_r, <- !app_assoc. reflexivity. }
  unfold Cmd_Start, proc_state, set_trace; cbn. rewrite lookup_snoc; cbn.
  destruct (env_start E _) as [e|]; cbn.
  { rewrite <- !app_assoc. reflexivity. }
  unfold load, store, set_proc, set_heap, set_cmds; cbn.
  rewrite lookup_snoc; cbn. rewrite Hp; cbn. rewrite Hp.
  rewrite insert_snoc, <- !app_assoc. reflexivity.
Qed.

Lemma throttled_header (st : Stream) (lastStart : Time) (w : World) :
  exists pre,
    w_trace (snd (throttled E st lastStart w)) = w_trace w ++ LogHeader st :: pre /\
    spawned pre = [].
Proof.
  unfold throttled. cbn [snd w_trace].
  destruct (Time_Sub _ _ <? MinRestart); eexists; split; reflexivity.
Qed.

(** [Wait] on a running process that ends on its own. *)
Lemma Run_wait_live (p : nat) (d : daemon) (lastStart : Time) (c : nat) (w : World)
    (i : ExitInfo) :
  w_heap w !! p = Some d ->
  proc_state c w = Some Live -> env_exit E c = Some i ->
  Run_wait E p lastStart c w
  = Some (AtLoop lastStart,
          set_trace (w_trace w ++ EvWait c ::
                       match ei_err i with
                       | Some _ => [LogShout (log d) "%s" [ArgStr (ei_desc i)]]
                       | None => []
                       end)
            (set_proc c (Exited i) w)).
Proof.
  intros Hp Hlive Hex. destruct w as [now ticks tr cmds heap tasks].
  unfold proc_state in Hlive. cbn [w_cmds w_heap] in *.
  destruct (cmds !! c) as [x|] eqn:Hc; [| discriminate]. cbn in Hlive.
  injection Hlive as Hst.
  unfold Run_wait, bind, Cmd_Wait, load, ProcessState_String, Stream_Shout,
    emit, ret, proc_state, set_proc, set_trace, set_cmds. cbn.
  rewrite Hc. cbn. rewrite Hst, Hex. cbn. rewrite ?Hc. cbn.
  destruct (ei_err i); cbn; [| reflexivity].
  rewrite Hp. cbn.
  rewrite list_lookup_insert_eq by (eapply lookup_lt_Some; eassumption). cbn.
  rewrite <- app_assoc. reflexivity.
Qed.

(** [Wait] on a process that was reaped before: the second [Wait] fails at
    once, and the loop logs the termination description that is there. *)
Lemma Run_wait_exited (p : nat) (d : daemon) (lastStart : Time) (c : nat) (w : World)
    (i : ExitInfo) :
  w_heap w !! p = Some d ->
  proc_state c w = Some (Exited i) ->
  Run_wait E p lastStart c w
  = Some (AtLoop lastStart,
          set_trace (w_trace w ++ [EvWait c; LogShout (log d) "%s" [ArgStr (ei_desc i)]]) w).
Proof.
  intros Hp Hst. destruct w as [now ticks tr cmds heap tasks].
  unfold proc_state in Hst. cbn [w_cmds w_heap] in *.
  destruct (cmds !! c) as [x|] eqn:Hc; [| discriminate]. cbn in Hst.
  injection Hst as Hst.
  unfold Run_wait, bind, Cmd_Wait, load, ProcessState_String, Stream_Shout,
    emit, ret, proc_state, set_proc, set_trace, set_cmds. cbn.
  rewrite Hc. cbn. rewrite Hst. cbn. rewrite Hp. cbn. rewrite Hc. cbn. rewrite Hst.
  cbn. rewrite <- app_assoc. reflexivity.
Qed.

(** A [Shutdown] that returns on a daemon with a command leaves that
    command's process ended. *)
Lemma daemon_Shutdown_exited (p : nat) (sig : Signal) (d : daemon) (c : nat)
    (w w' : World) u :
  w_heap w !! p = Some d -> cmd d = Some c ->
  daemon_Shutdown E p sig w = Some (u, w') ->
  exists i b, proc_state c w' = Some (Exited i) /\
              w_trace w' = w_trace w ++ [EvSignal c sig b; EvWait c].
Proof.
  intros Hp Hcmd.
  rewrite (daemon_Shutdown_cases E p sig d w Hp). cbv zeta. rewrite Hcmd.
  assert (Hdone : forall tr i,
             is_Some (w_cmds w !! c) ->
             proc_state c (set_trace tr
                             (set_proc c (Exited i)
                                (set_heap (<[p := set_stop true d]> (w_heap w)) w)))
             = Some (Exited i)).
  { intros tr i [x Hc]. unfold proc_state, set_proc. cbn. rewrite Hc. cbn.
    rewrite list_lookup_insert_eq by (eapply lookup_lt_Some; eassumption).
    reflexivity. }
  unfold proc_state at 1.
  destruct (w_cmds w !! c) as [x|] eqn:Hc; cbn; [| discriminate].
  destruct (c_state x) as [| |i|i]; [discriminate | | |].
  - destruct (env_signal E c sig) as [i|].
    + intros [= <- <-]. exists i, true. split; [apply Hdone; eauto | reflexivity].
    + destruct (env_exit E c) as [i|]; [| discriminate].
      intros [= <- <-]. exists i, true. split; [apply Hdone; eauto | reflexivity].
  - intros [= <- <-]. exists i, true. split; [apply Hdone; eauto | reflexivity].
  - intros [= <- <-]. exists i, false. split; [apply Hdone; eauto | reflexivity].
Qed.

(** X4: when a daemon's pipes cannot be set up or its process cannot be
    started, [Run] logs the error at high severity, records no command in
    the daemon, leaves the process not started, and goes back to the loop
    condition: the failure does not end the daemon. *)
Theorem Run_launch_failure_is_logged :
  forall (p : nat) (d : daemon) (lastStart : Time) (w : World) (e : error),
    w_heap w !! p = Some d -> stop d = false ->
    let c := length (w_cmds w) in
    env_stdout_pipe E c = Some e \/
    (env_stdout_pipe E c = None /\ env_stderr_pipe E c = Some e) \/
    (env_stdout_pipe E c = None /\ env_stderr_pipe E c = None /\
     env_start E c = Some e) ->
    exists t w' new,
      Run_head E p lastStart w = Some (AtLoop t, w') /\
      w_trace w' = w_trace w ++ new /\
      shouts new = [("%s", [ArgErr e])] /\
      spawned new = [(getShell, ["-c"; Daemon_Command (conf d)])] /\
      w_heap w' = w_heap w /\
      proc_state c w' = Some NotStarted.
Proof.
  intros p d ls w e Hp Hstop c Hfail.
  rewrite Run_head_split, Hp, Hstop, throttle_eq.
  destruct (throttled_shouts (log d) ls w) as (pre & Htr & Hsh & Hsp & Hc & Hh & _).
  destruct (throttled E (log d) ls w) as [t w1]. cbn [snd] in *.
  assert (Hp1 : w_heap w1 !! p = Some d) by now rewrite Hh.
  rewrite (launch_cases p d d t w1 Hp1). cbv zeta. rewrite Hc, Htr, Hh. fold c.
  assert (Hnew : forall st, proc_state c
             (mkWorld (w_now w1) (w_ticks w1) [] (w_cmds w ++ [mkCmd getShell
                ["-c"; Daemon_Command (conf d)] st]) (w_heap w) []) = Some st).
  { intros st. unfold proc_state. cbn. subst c. now rewrite lookup_snoc. }
  destruct Hfail as [Hso | [[Hso Hse] | (Hso & Hse & Hst)]].
  - rewrite Hso. do 3 eexists. split; [reflexivity |]. cbn [w_trace w_heap].
    rewrite <- app_assoc. split; [reflexivity |].
    rewrite shouts_app, spawned_app, Hsh, Hsp.
    repeat split. unfold proc_state. cbn. subst c. now rewrite lookup_snoc.
  - rewrite Hso, Hse. do 3 eexists. split; [reflexivity |]. cbn [w_trace w_heap].
    rewrite <- app_assoc. split; [reflexivity |].
    rewrite shouts_app, spawned_app, Hsh, Hsp.
    repeat split. unfold proc_state. cbn. subst c. now rewrite lookup_snoc.
  - rewrite Hso, Hse, Hst. do 3 eexists. split; [reflexivity |]. cbn [w_trace w_heap].
    rewrite <- app_assoc. split; [reflexivity |].
    rewrite shouts_app, spawned_app, Hsh, Hsp.
    repeat split. unfold proc_state. cbn. subst c. now rewrite lookup_snoc.
Qed.

(** X5: when the process of a daemon that is not stopped ends on its own,
    [Run] launches the command again, whatever the exit status: a failed
    exit is logged at high severity with the termination description, a
    successful one is not logged at all; then comes the header of the next
    launch. *)
Theorem Run_restarts_after_any_exit :
  forall (p : nat) (d : daemon) (lastStart : Time) (c : nat) (w : World)
         (i : ExitInfo),
    w_heap w !! p = Some d -> stop d = false ->
    proc_state c w = Some Live -> env_exit E c = Some i ->
    exists pc w' rest,
      Run_steps E 2 p (AtWait lastStart c) w = (pc, w') /\
      pc <> Returned /\
      w_trace w' = w_trace w
                    ++ EvWait c ::
                       match ei_err i with
                       | Some _ => [LogShout (log d) "%s" [ArgStr (ei_desc i)]]
                       | None => []
                       end
                    ++ LogHeader (log d) :: rest /\
      shouts rest = match env_stdout_pipe E (length (w_cmds w)),
                          env_stderr_pipe E (length (w_cmds w)),
                          env_start E (length (w_cmds w)) with
                    | None, None, None => []
                    | Some e, _, _ | None, Some e, _ | None, None, Some e =>
                        [("%s", [ArgErr e])]
                    end /\
      spawned rest = [(getShell, ["-c"; Daemon_Command (conf d)])].
Proof.
  intros p d ls c w i Hp Hstop Hlive Hex.
  cbn [Run_steps Run_step].
  rewrite (Run_wait_live p d ls c w i Hp Hlive Hex).
  set (w1 := set_trace _ (set_proc c (Exited i) w)).
  assert (Hh1 : w_heap w1 = w_heap w).
  { subst w1. unfold set_proc. cbn. destruct (w_cmds w !! c); reflexivity. }
  assert (Hc1 : length (w_cmds w1) = length (w_cmds w)).
  { subst w1. unfold set_proc. cbn.
    destruct (w_cmds w !! c); cbn; [now rewrite length_insert | reflexivity]. }
  assert (Ht1 : w_trace w1 = w_trace w ++ EvWait c ::
                       match ei_err i with
                       | Some _ => [LogShout (log d) "%s" [ArgStr (ei_desc i)]]
                       | None => []
                       end) by reflexivity.
  assert (Hp1 : w_heap w1 !! p = Some d) by now rewrite Hh1.
  clearbody w1. cbn [Run_step].
  rewrite Run_head_split, Hp1, Hstop, throttle_eq.
  destruct (throttled_header (log d) ls w1) as (pre & Htr & Hsp).
  destruct (throttled_shouts (log d) ls w1) as (pre0 & Htr0 & Hsh0 & _ & Hc & Hh & _).
  rewrite Htr in Htr0. apply app_inv_head in Htr0. subst pre0.
  destruct (throttled E (log d) ls w1) as [t w2]. cbn [snd] in *.
  assert (Hp2 : w_heap w2 !! p = Some d) by now rewrite Hh.
  rewrite (launch_cases p d d t w2 Hp2). cbv zeta. rewrite Hc, Hc1, Htr, Ht1.
  cbn [shouts] in Hsh0.
  destruct (env_stdout_pipe E _) as [e|];
    [| destruct (env_stderr_pipe E _) as [e|];
       [| destruct (env_start E _) as [e|]]];
    do 3 eexists; (split; [reflexivity |]); (split; [discriminate |]);
    cbn [w_trace]; rewrite <- !app_assoc; cbn [app];
    (split; [reflexivity |]);
    rewrite shouts_app, spawned_app, Hsh0, Hsp; split; reflexivity.
Qed.

(** X6: [Shutdown] called on a daemon itself (through its address) ends its
    [Run] loop: wherever the loop stands, at the loop condition or in the
    [Wait] for the daemon's command, it returns within two steps without
    launching anything, and the daemon stays stopped.  On a daemon without
    a command, [Shutdown] does nothing but set the flag. *)
Theorem daemon_Shutdown_ends_Run :
  forall (p : nat) (sig : Signal) (d : daemon) (w w1 : World) (u : unit),
    w_heap w !! p = Some d ->
    daemon_Shutdown E p sig w = Some (u, w1) ->
    w_heap w1 !! p = Some (set_stop true d) /\
    (cmd d = None -> w_trace w1 = w_trace w /\ w_cmds w1 = w_cmds w) /\
    forall (pc : RunPc) (n : nat),
      match pc with AtWait _ c => cmd d = Some c | _ => True end ->
      (2 <= n)%nat ->
      exists w2 new,
        Run_steps E n p pc w1 = (Returned, w2) /\
        w_trace w2 = w_trace w1 ++ new /\
        spawned new = [] /\
        w_heap w2 = w_heap w1.
Proof.
  intros p sig d w w1 u Hp Hshut.
  pose proof (daemon_Shutdown_heap E p sig d w w1 u Hp Hshut) as Hh.
  assert (Hp1 : w_heap w1 !! p = Some (set_stop true d)).
  { rewrite Hh. apply list_lookup_insert_eq. eapply lookup_lt_Some; eassumption. }
  split; [exact Hp1 |]. split.
  { intros Hnone. rewrite (daemon_Shutdown_cases E p sig d w Hp) in Hshut.
    cbv zeta in Hshut. rewrite Hnone in Hshut. injection Hshut as _ <-.
    split; reflexivity. }
  assert (Hhead : forall ls w', w_heap w' !! p = Some (set_stop true d) ->
                    Run_head E p ls w' = Some (Returned, w')).
  { intros ls w' Hp'. rewrite Run_head_split, Hp'. reflexivity. }
  intros pc n Hpc Hn.
  destruct n as [|[|n]]; try lia.
  destruct pc as [ls | ls c |].
  - cbn [Run_steps Run_step]. rewrite (Hhead ls w1 Hp1).
    exists w1, []. rewrite app_nil_r.
    repeat split. destruct n; [reflexivity | cbn; apply Run_steps_Returned].
  - destruct (daemon_Shutdown_exited p sig d c w w1 u Hp Hpc Hshut) as (i & b & Hex & _).
    cbn [Run_steps Run_step].
    rewrite (Run_wait_exited p (set_stop true d) ls c w1 i Hp1 Hex).
    cbn [Run_step]. rewrite Hhead by exact Hp1.
    eexists _, _. split; [apply Run_steps_Returned |].
    repeat split.
  - exists w1, []. rewrite app_nil_r. repeat split. apply Run_steps_Returned.
Qed.

End RestartLoopCases.

(** The theorem at a daemon whose standard output pipe cannot be set up. *)
Lemma Run_launch_failure_is_logged_witness :
  exists t w' new,
    Run_head env_no_pipe 0 zeroTime world1 = Some (AtLoop t, w') /\
    w_trace w' = w_trace world1 ++ new /\
    shouts new = [("%s", [ArgErr (Err "pipe: too many open files")])] /\
    spawned new = [(getShell, ["-c"; "devd -m ./public"])] /\
    w_heap w' = w_heap world1 /\
    proc_state 0 w' = Some NotStarted.
Proof.
  apply (Run_launch_failure_is_logged env_no_pipe 0%nat a_daemon zeroTime world1
           (Err "pipe: too many open files") eq_refl eq_refl).
  left. reflexivity.
Defined.

(** The theorem at the running daemon of [world_running], whose process
    exits with status 0. *)
Lemma Run_restarts_after_any_exit_witness :
  exists pc w' rest,
    Run_steps env_ok 2 0 (AtWait 0 0) world_running = (pc, w') /\
    pc <> Returned /\
    w_trace w' = w_trace world_running
                  ++ EvWait 0 :: [] ++ LogHeader (log a_daemon) :: rest /\
    shouts rest = [] /\
    spawned rest = [(getShell, ["-c"; "devd -m ./public"])].
Proof.
  apply (Run_restarts_after_any_exit env_ok 0%nat (set_cmd (Some 0%nat) a_daemon)
           0 0%nat world_running exit_ok eq_refl eq_refl eq_refl eq_refl).
Defined.

(** The theorem at the running daemon of [world_running], shut down with
    SIGTERM while its loop is in [Wait]. *)
Lemma daemon_Shutdown_ends_Run_witness :
  exists w2 new,
    Run_steps env_ok 2 0 (AtWait 0 0) world_shut = (Returned, w2) /\
    w_trace w2 = w_trace world_shut ++ new /\
    spawned new = [] /\
    w_heap w2 = w_heap world_shut.
Proof.
  destruct (daemon_Shutdown_ends_Run env_ok 0%nat SIGTERM
              (set_cmd (Some 0%nat) a_daemon) world_running world_shut tt
              eq_refl eq_refl) as (_ & _ & Hends).
  apply (Hends (AtWait 0 0%nat) 2%nat eq_refl). lia.
Defined.

(** ** The pen, again *)

Section PenStartAgain.

(** X7: [Start] on an unlocked pen makes one daemon per specification, in
    order and in new variables, each without a command and not stopped;
    it starts one [Run] goroutine on each of these variables; the pen comes
    back unlocked and holds the new slice.  [Start] itself logs nothing and
    creates no command, and it leaves every daemon that existed before and
    every goroutine started before as it was: daemons of an earlier [Start]
    are dropped from the pen without being stopped. *)
Theorem DaemonPen_Start_replaces_collection :
  forall (dp : DaemonPen) (specs : list Daemon) (log : TermLog) (w : World),
    locked dp = false ->
    let s := mkSlice (length (w_heap w)) (length specs) in
    exists w',
      DaemonPen_Start dp specs log w = Some (mkDaemonPen (Some s) false, w') /\
      slice_daemons s w' = map (new_daemon log) specs /\
      w_tasks w' = w_tasks w ++ map GoRun (seq (length (w_heap w)) (length specs)) /\
      (forall j, (j < length (w_heap w))%nat -> w_heap w' !! j = w_heap w !! j) /\
      w_trace w' = w_trace w /\ w_cmds w' = w_cmds w.
Proof.
  intros dp specs log w Hl s.
  rewrite (DaemonPen_Start_eq dp specs log w Hl).
  eexists. split; [reflexivity |].
  unfold slice_daemons. cbn.
  split; [| split; [reflexivity | split; [| split; reflexivity]]].
  - rewrite drop_app_length. apply take_ge. rewrite length_map. lia.
  - intros j Hj. now rewrite lookup_app_l.
Qed.

End PenStartAgain.

(** The theorem at a pen that is started twice: the first daemon is still
    there, not stopped, with its goroutine, but the pen holds the second. *)
Lemma DaemonPen_Start_replaces_collection_witness :
  exists w',
    DaemonPen_Start pen1 [mkDaemon "make watch" SIGINT] the_log pen_world_started
      = Some (mkDaemonPen (Some (mkSlice 1 1)) false, w') /\
    w_heap w' !! 0%nat = Some a_daemon /\
    w_tasks w' = [GoRun 0; GoRun 1].
Proof.
  destruct (DaemonPen_Start_replaces_collection pen1 [mkDaemon "make watch" SIGINT]
              the_log pen_world_started eq_refl)
    as (w' & Hrun & _ & Htasks & Hframe & _).
  exists w'. split; [exact Hrun |]. split.
  - rewrite (Hframe 0%nat); [reflexivity | cbn; lia].
  - rewrite Htasks. reflexivity.
Defined.

(** ** Loops over copies of the daemons *)

Section CopyLoop.

(** The state of a process after [set_proc]. *)
Lemma proc_state_set_proc (c c' : nat) (st : ProcState) (w : World) :
  proc_state c (set_proc c' st w) =
  if decide (c = c')
  then match proc_state c w with Some _ => Some st | None => None end
  else proc_state c w.
Proof.
  unfold proc_state, set_proc.
  destruct (w_cmds w !! c') as [x|] eqn:Hc'.
  - cbn. destruct (decide (c = c')) as [->|Hne].
    + rewrite list_lookup_insert_eq by (eapply lookup_lt_Some; exact Hc').
      rewrite Hc'. reflexivity.
    + rewrite list_lookup_insert_ne by congruence. reflexivity.
  - destruct (decide (c = c')) as [->|Hne]; [| reflexivity].
    rewrite Hc'. reflexivity.
Qed.

Lemma holds_started_mono (w w' : World) (d : daemon) :
  (forall c, startedb c w = true -> startedb c w' = true) ->
  holds_started w d = true -> holds_started w' d = true.
Proof. unfold holds_started. destruct (cmd d); auto. Qed.

Lemma holds_ended_mono (w w' : World) (d : daemon) :
  (forall c, endedb c w = true -> endedb c w' = true) ->
  holds_ended w d = true -> holds_ended w' d = true.
Proof. unfold holds_ended. destruct (cmd d); auto. Qed.

Variable f : nat -> M unit.
Variable calls : daemon -> list Event.
Variable Q : World -> daemon -> bool.

Hypothesis f_step : forall q d w,
  w_heap w !! q = Some d -> holds_started w d = true ->
  exists w' new,
    f q w = Some (tt, w') /\
    w_trace w' = w_trace w ++ new /\
    map forget_delivery new = calls d /\
    length (w_heap w') = length (w_heap w) /\
    (forall j, j <> q -> w_heap w' !! j = w_heap w !! j) /\
    (forall c, startedb c w = true -> startedb c w' = true) /\
    (forall c, endedb c w = true -> endedb c w' = true) /\
    Q w' d = true.

Hypothesis Q_mono : forall w w' d,
  (forall c, endedb c w = true -> endedb c w' = true) ->
  Q w d = true -> Q w' d = true.

(** The loop body of [for _, d := range ... { f(&d) }] over the elements at
    [base + i], [i] in [l], whose values are [ds]. *)
Lemma for_each_copy (base dvar : nat) (l : list nat) (ds : list daemon) :
  forall w,
    (dvar < length (w_heap w))%nat ->
    Forall2 (fun i d => (base + i)%nat <> dvar /\
                        w_heap w !! (base + i)%nat = Some d /\
                        holds_started w d = true) l ds ->
    exists w' new,
      for_each l (fun i => x <- load (base + i) ;; store dvar x ;; f dvar) w
        = Some (tt, w') /\
      w_trace w' = w_trace w ++ new /\
      map forget_delivery new = concat (map calls ds) /\
      length (w_heap w') = length (w_heap w) /\
      (forall j, j <> dvar -> w_heap w' !! j = w_heap w !! j) /\
      (forall c, startedb c w = true -> startedb c w' = true) /\
      (forall c, endedb c w = true -> endedb c w' = true) /\
      forallb (Q w') ds = true.
Proof.
  revert ds. induction l as [|i l IH]; intros ds w Hlt HF.
  - inversion HF; subst. exists w, []. cbn.
    rewrite app_nil_r. repeat split; auto.
  - inversion HF as [|i' d l' ds' (Hne & Hi & Hs) HF']; subst.
    set (w1 := set_heap (<[dvar := d]> (w_heap w)) w).
    assert (Hd1 : w_heap w1 !! dvar = Some d).
    { unfold w1. cbn. now apply list_lookup_insert_eq. }
    assert (Hs1 : holds_started w1 d = true) by exact Hs.
    destruct (f_step dvar d w1 Hd1 Hs1)
      as (w2 & new1 & Hf & Htr1 & Hcalls1 & Hlen1 & Hfr1 & Hst1 & Hen1 & HQ1).
    assert (Hlen2 : length (w_heap w2) = length (w_heap w)).
    { rewrite Hlen1. unfold w1. cbn. apply length_insert. }
    assert (Hfr2 : forall j, j <> dvar -> w_heap w2 !! j = w_heap w !! j).
    { intros j Hj. rewrite (Hfr1 j Hj). unfold w1. cbn.
      now rewrite list_lookup_insert_ne by congruence. }
    assert (HF2 : Forall2 (fun i d => (base + i)%nat <> dvar /\
                             w_heap w2 !! (base + i)%nat = Some d /\
                             holds_started w2 d = true) l ds').
    { eapply Forall2_impl; [exact HF' |].
      intros j e (Hne' & Hj & Hsj). split; [exact Hne' |]. split.
      - now rewrite (Hfr2 _ Hne').
      - eapply holds_started_mono; [| exact Hsj]. intros c Hc. now apply Hst1. }
    destruct (IH ds' w2 ltac:(lia) HF2)
      as (w' & new2 & Hrest & Htr2 & Hcalls2 & Hlen' & Hfr' & Hst' & Hen' & HQ').
    exists w', (new1 ++ new2).
    split.
    { cbn [for_each]. unfold bind at 1. unfold bind at 1. unfold load at 1.
      rewrite Hi. unfold bind at 1. unfold store at 1.
      destruct (w_heap w !! dvar) as [y|] eqn:Hy.
      - fold w1. rewrite Hf. exact Hrest.
      - apply lookup_ge_None in Hy. lia. }
    split; [rewrite Htr2, Htr1; unfold w1; cbn; now rewrite app_assoc |].
    split; [rewrite map_app, Hcalls1, Hcalls2; reflexivity |].
    split; [lia |].
    split; [intros j Hj; now rewrite (Hfr' j Hj), (Hfr2 j Hj) |].
    split; [intros c Hc; apply Hst', Hst1; exact Hc |].
    split; [intros c Hc; apply Hen', Hen1; exact Hc |].
    cbn [forallb]. rewrite HQ', (Q_mono w2 w' d Hen' HQ1). reflexivity.
Qed.

(** [for _, d := range s { f(&d) }] on a slice of daemons that exist. *)
Lemma range_values_copy (s : Slice) (w : World) :
  (sl_base s + sl_len s <= length (w_heap w))%nat ->
  forallb (holds_started w) (slice_daemons s w) = true ->
  exists w' new,
    range_values s f w = Some (tt, w') /\
    w_trace w' = w_trace w ++ new /\
    map forget_delivery new = concat (map calls (slice_daemons s w)) /\
    (forall j, (j < length (w_heap w))%nat -> w_heap w' !! j = w_heap w !! j) /\
    (forall c, startedb c w = true -> startedb c w' = true) /\
    (forall c, endedb c w = true -> endedb c w' = true) /\
    forallb (Q w') (slice_daemons s w) = true.
Proof.
  intros Hin Hall.
  set (w0 := set_heap (w_heap w ++ [zero_daemon]) w).
  assert (HF : Forall2 (fun i d => (sl_base s + i)%nat <> length (w_heap w) /\
                          w_heap w0 !! (sl_base s + i)%nat = Some d /\
                          holds_started w0 d = true)
                 (seq 0 (sl_len s)) (slice_daemons s w)).
  { apply Forall2_same_length_lookup_2.
    - unfold slice_daemons. rewrite length_seq, length_take, length_drop. lia.
    - intros i j d Hj Hd. unfold slice_daemons in Hd.
      apply lookup_seq in Hj as [-> Hlt]. cbn [Nat.add] in *.
      apply lookup_take_Some in Hd as [Hd _]. rewrite lookup_drop in Hd.
      split; [lia |]. split.
      + unfold w0. cbn. rewrite lookup_app_l by lia. exact Hd.
      + rewrite forallb_forall in Hall. apply (Hall d).
        apply list_elem_of_In. unfold slice_daemons.
        apply (list_elem_of_lookup_2 _ i).
        apply lookup_take_Some. split; [| exact Hlt]. now rewrite lookup_drop. }
  destruct (for_each_copy (sl_base s) (length (w_heap w)) _ _ w0
              ltac:(unfold w0; cbn; rewrite length_app; cbn; lia) HF)
    as (w' & new & Hrun & Htr & Hcalls & Hlen & Hfr & Hst & Hen & HQ).
  exists w', new.
  split; [unfold range_values, bind, alloc; fold w0; exact Hrun |].
  split; [exact Htr |]. split; [exact Hcalls |].
  split.
  { intros j Hj. rewrite (Hfr j) by lia. unfold w0. cbn. now rewrite lookup_app_l. }
  split; [exact Hst |]. split; [exact Hen |]. exact HQ.
Qed.

End CopyLoop.

Section PenSignals.

Variable E : Env.

Lemma set_proc_heap (c : nat) (st : ProcState) (w : World) :
  w_heap (set_proc c st w) = w_heap w.
Proof. unfold set_proc. destruct (w_cmds w !! c); reflexivity. Qed.

Lemma startedb_set_proc (c c' : nat) (st : ProcState) (w : World) :
  st <> NotStarted ->
  startedb c' w = true -> startedb c' (set_proc c st w) = true.
Proof.
  unfold startedb. intros Hst. rewrite proc_state_set_proc.
  destruct (decide (c' = c)); [| auto].
  destruct (proc_state c' w); [| discriminate].
  intros _. destruct st; congruence.
Qed.

Lemma endedb_set_proc (c c' : nat) (i : ExitInfo) (w : World) :
  endedb c' w = true -> endedb c' (set_proc c (Exited i) w) = true.
Proof.
  unfold endedb. rewrite proc_state_set_proc.
  destruct (decide (c' = c)); [| auto].
  destruct (proc_state c' w); [reflexivity | discriminate].
Qed.

(** [Restart] on a daemon whose command, if it holds one, has been
    started. *)
Lemma daemon_Restart_step (q : nat) (d : daemon) (w : World) :
  w_heap w !! q = Some d -> holds_started w d = true ->
  exists w' new,
    daemon_Restart E q w = Some (tt, w') /\
    w_trace w' = w_trace w ++ new /\
    map forget_delivery new = restart_calls d /\
    length (w_heap w') = length (w_heap w) /\
    (forall j, j <> q -> w_heap w' !! j = w_heap w !! j) /\
    (forall c, startedb c w = true -> startedb c w' = true) /\
    (forall c, endedb c w = true -> endedb c w' = true) /\
    true = true.
Proof.
  intros Hp Hs. rewrite (daemon_Restart_cases E q d w Hp). cbv zeta.
  unfold holds_started, restart_calls in *.
  destruct (cmd d) as [c|].
  - unfold startedb in Hs.
    destruct (proc_state c w) as [[| |i|i]|] eqn:Hps; try discriminate.
    + destruct (env_signal E c _) as [i|]; eexists _, _;
        (split; [reflexivity |]); (split; [reflexivity |]);
        (split; [reflexivity |]).
      * cbn [w_heap set_trace]. rewrite set_proc_heap.
        split; [reflexivity |]. split; [reflexivity |].
        split; [| split; [| reflexivity]].
        -- intros c0 Hc0. apply (startedb_set_proc c c0 (Dying i) w); [discriminate | exact Hc0].
        -- intros c0. unfold endedb.
           change (proc_state c0 (set_trace ?t ?v)) with (proc_state c0 v).
           rewrite proc_state_set_proc.
           destruct (decide (c0 = c)) as [->|]; [rewrite Hps; discriminate | auto].
      * repeat split; auto.
    + eexists _, _. repeat split; auto.
    + eexists _, _. repeat split; auto.
  - exists w, []. rewrite app_nil_r. repeat split; auto.
Qed.

(** [Shutdown] on such a daemon, when every process dies of the signal or
    ends on its own. *)
Lemma daemon_Shutdown_step (sig : Signal) (q : nat) (d : daemon) (w : World) :
  (forall c, env_signal E c sig <> None \/ env_exit E c <> None) ->
  w_heap w !! q = Some d -> holds_started w d = true ->
  exists w' new,
    daemon_Shutdown E q sig w = Some (tt, w') /\
    w_trace w' = w_trace w ++ new /\
    map forget_delivery new = shutdown_calls sig d /\
    length (w_heap w') = length (w_heap w) /\
    (forall j, j <> q -> w_heap w' !! j = w_heap w !! j) /\
    (forall c, startedb c w = true -> startedb c w' = true) /\
    (forall c, endedb c w = true -> endedb c w' = true) /\
    holds_ended w' d = true.
Proof.
  intros Hends Hp Hs. rewrite (daemon_Shutdown_cases E q sig d w Hp). cbv zeta.
  set (w1 := set_heap (<[q := set_stop true d]> (w_heap w)) w).
  assert (Hdone : forall delivered i c,
             cmd d = Some c -> proc_state c w <> None ->
             let w' := set_trace (w_trace w ++ [EvSignal c sig delivered; EvWait c])
                         (set_proc c (Exited i) w1) in
             w_trace w' = w_trace w ++ [EvSignal c sig delivered; EvWait c] /\
             map forget_delivery [EvSignal c sig delivered; EvWait c]
               = shutdown_calls sig d /\
             length (w_heap w') = length (w_heap w) /\
             (forall j, j <> q -> w_heap w' !! j = w_heap w !! j) /\
             (forall c, startedb c w = true -> startedb c w' = true) /\
             (forall c, endedb c w = true -> endedb c w' = true) /\
             holds_ended w' d = true).
  { intros delivered i c Hc Hex w'.
    split; [reflexivity |].
    split; [unfold shutdown_calls; rewrite Hc; reflexivity |].
    unfold w'. cbn [w_heap set_trace]. rewrite set_proc_heap. unfold w1. cbn [w_heap set_heap].
    split; [apply length_insert |].
    split; [intros j Hj; now rewrite list_lookup_insert_ne by congruence |].
    split; [intros c0 Hc0; apply (startedb_set_proc c c0 (Exited i)); [discriminate | exact Hc0] |].
    split; [intros c0 Hc0; apply (endedb_set_proc c c0 i); exact Hc0 |].
    unfold holds_ended. rewrite Hc. unfold endedb.
    change (proc_state c (set_trace ?t ?v)) with (proc_state c v).
    rewrite proc_state_set_proc. destruct (decide (c = c)); [| congruence].
    change (proc_state c (set_heap ?h ?v)) with (proc_state c v).
    destruct (proc_state c w); [reflexivity | congruence]. }
  unfold holds_started in Hs.
  destruct (cmd d) as [c|] eqn:Hc.
  - unfold startedb in Hs.
    destruct (proc_state c w) as [[| |i|i]|] eqn:Hps; try discriminate.
    + destruct (env_signal E c sig) as [i|] eqn:Hsig.
      * eexists _, _. split; [reflexivity |]. apply Hdone; [reflexivity | congruence].
      * destruct (env_exit E c) as [i|] eqn:Hex.
        -- eexists _, _. split; [reflexivity |]. apply Hdone; [reflexivity | congruence].
        -- destruct (Hends c); congruence.
    + eexists _, _. split; [reflexivity |]. apply Hdone; [reflexivity | congruence].
    + eexists _, _. split; [reflexivity |]. apply Hdone; [reflexivity | congruence].
  - exists w1, []. split; [reflexivity |].
    unfold w1. cbn [w_trace w_heap set_heap]. rewrite app_nil_r.
    split; [reflexivity |].
    split; [unfold shutdown_calls; rewrite Hc; reflexivity |].
    split; [apply length_insert |].
    split; [intros j Hj; now rewrite list_lookup_insert_ne by congruence |].
    split; [auto |]. split; [auto |].
    unfold holds_ended. rewrite Hc. reflexivity.
Qed.

(** X8: [Restart] of an unlocked pen that holds no collection does nothing.
    On a collection whose daemons hold no command or a started one, it
    returns, and what it does is, for each daemon in the order of the slice
    that holds a command: a header on the daemon's stream and then the
    daemon's own restart signal to that command; a daemon without a command
    is skipped, and nothing is waited for.  The pen comes back unlocked with
    the same collection, and no daemon variable that existed is changed. *)
Theorem DaemonPen_Restart_signals_each_daemon :
  forall (dp : DaemonPen) (w : World),
    locked dp = false ->
    match daemons dp with
    | None => DaemonPen_Restart E dp w = Some (dp, w)
    | Some s =>
        (sl_base s + sl_len s <= length (w_heap w))%nat ->
        forallb (holds_started w) (slice_daemons s w) = true ->
        exists w' new,
          DaemonPen_Restart E dp w = Some (dp, w') /\
          w_trace w' = w_trace w ++ new /\
          map forget_delivery new = concat (map restart_calls (slice_daemons s w)) /\
          (forall j, (j < length (w_heap w))%nat -> w_heap w' !! j = w_heap w !! j) /\
          (forall c, endedb c w = true -> endedb c w' = true)
    end.
Proof.
  intros [ds lk] w Hl. cbn in Hl. subst lk. cbn [daemons].
  unfold DaemonPen_Restart, Lock, Unlock. cbn [locked daemons].
  destruct ds as [s|].
  - intros Hin Hall.
    destruct (range_values_copy (fun q => daemon_Restart E q) restart_calls (fun _ _ => true)
                (daemon_Restart_step) (fun _ _ _ _ H => H) s w Hin Hall)
      as (w' & new & Hrun & Htr & Hcalls & Hfr & _ & Hen & _).
    exists w', new.
    split; [| split; [exact Htr | split; [exact Hcalls | split; [exact Hfr | exact Hen]]]].
    unfold bind at 1. unfold ret at 1. unfold bind at 1. cbn [daemons].
    rewrite Hrun. reflexivity.
  - reflexivity.
Qed.

(** X9: [Shutdown] of an unlocked pen that holds no collection does nothing.
    On a collection whose daemons hold no command or a started one, and
    when every process dies of the signal or ends on its own, it returns,
    and what it does is, for each daemon in the order of the slice that
    holds a command: the signal to that command and then the wait for it,
    one daemon after the other.  When it returns, the command of every
    daemon of the collection has ended, and the pen is unlocked with the
    same collection. *)
Theorem DaemonPen_Shutdown_signals_and_waits :
  forall (dp : DaemonPen) (sig : Signal) (w : World),
    locked dp = false ->
    (forall c, env_signal E c sig <> None \/ env_exit E c <> None) ->
    match daemons dp with
    | None => DaemonPen_Shutdown E dp sig w = Some (dp, w)
    | Some s =>
        (sl_base s + sl_len s <= length (w_heap w))%nat ->
        forallb (holds_started w) (slice_daemons s w) = true ->
        exists w' new,
          DaemonPen_Shutdown E dp sig w = Some (dp, w') /\
          w_trace w' = w_trace w ++ new /\
          map forget_delivery new
            = concat (map (shutdown_calls sig) (slice_daemons s w)) /\
          forallb (holds_ended w') (slice_daemons s w) = true
    end.
Proof.
  intros [ds lk] sig w Hl Hends. cbn in Hl. subst lk. cbn [daemons].
  unfold DaemonPen_Shutdown, Lock, Unlock. cbn [locked daemons].
  destruct ds as [s|].
  - intros Hin Hall.
    destruct (range_values_copy (fun q => daemon_Shutdown E q sig)
                (shutdown_calls sig) holds_ended
                (fun q d w => daemon_Shutdown_step sig q d w Hends)
                (fun w w' d H => holds_ended_mono w w' d H) s w Hin Hall)
      as (w' & new & Hrun & Htr & Hcalls & _ & _ & _ & HQ).
    exists w', new.
    split; [| split; [exact Htr | split; [exact Hcalls | exact HQ]]].
    unfold bind at 1. unfold ret at 1. unfold bind at 1. cbn [daemons].
    rewrite Hrun. reflexivity.
  - reflexivity.
Qed.

End PenSignals.

(** The theorem at the pen of one daemon whose command runs. *)
Lemma DaemonPen_Restart_signals_each_daemon_witness :
  locked pen1 = false /\
  exists w' new,
    DaemonPen_Restart env_ok pen1 pen_world_running = Some (pen1, w') /\
    w_trace w' = w_trace pen_world_running ++ new /\
    map forget_delivery new
      = [LogHeader (log a_daemon); EvSignal 0 SIGHUP true] /\
    (forall j, (j < 1)%nat -> w_heap w' !! j = w_heap pen_world_running !! j) /\
    (forall c, endedb c pen_world_running = true -> endedb c w' = true).
Proof.
  split; [reflexivity |].
  apply (DaemonPen_Restart_signals_each_daemon env_ok pen1 pen_world_running eq_refl).
  - vm_compute. lia.
  - reflexivity.
Defined.

Lemma DaemonPen_Shutdown_signals_and_waits_witness :
  locked pen1 = false /\
  (forall c, env_signal env_ok c SIGTERM <> None \/ env_exit env_ok c <> None) /\
  exists w' new,
    DaemonPen_Shutdown env_ok pen1 SIGTERM pen_world_running = Some (pen1, w') /\
    w_trace w' = w_trace pen_world_running ++ new /\
    map forget_delivery new = [EvSignal 0 SIGTERM true; EvWait 0] /\
    forallb (holds_ended w') (slice_daemons (mkSlice 0 1) pen_world_running) = true.
Proof.
  split; [reflexivity |].
  split; [intros c; left; discriminate |].
  apply (DaemonPen_Shutdown_signals_and_waits env_ok pen1 SIGTERM pen_world_running eq_refl).
  - intros c; left; discriminate.
  - vm_compute. lia.
  - reflexivity.
Defined.

(** ** The streamer, again *)

Section StreamerText.

Local Open Scope nat_scope.









End StreamerText.

(** ** What Run writes *)

Section RunWrites.

Variable E : Env.

Lemma startedb_cmds_app (c : nat) (w w' : World) (l : list Cmd) :
  w_cmds w' = w_cmds w ++ l ->
  startedb c w = true -> startedb c w' = true.
Proof.
  unfold startedb, proc_state. intros ->.
  destruct (w_cmds w !! c) as [x|] eqn:Hc; [| discriminate].
  now rewrite (lookup_app_l_Some _ _ _ _ Hc).
Qed.

Lemma startedb_cmds_insert (c c0 : nat) (x : Cmd) (w w' : World) :
  w_cmds w' = <[c := x]> (w_cmds w) -> c_state x <> NotStarted ->
  startedb c0 w = true -> startedb c0 w' = true.
Proof.
  unfold startedb, proc_state. intros -> Hx.
  destruct (w_cmds w !! c0) as [y|] eqn:Hc; [| discriminate].
  destruct (decide (c0 = c)) as [->|Hne].
  - rewrite list_lookup_insert_eq by (eapply lookup_lt_Some; exact Hc). cbn.
    intros _. destruct (c_state x); congruence.
  - rewrite list_lookup_insert_ne by congruence. now rewrite Hc.
Qed.

(** The commands after the second half of an iteration. *)
Lemma Run_wait_cmds (p : nat) (lastStart : Time) (c : nat) (w w' : World) (pc : RunPc) :
  Run_wait E p lastStart c w = Some (pc, w') ->
  w_cmds w' = w_cmds w \/
  exists x i, w_cmds w' = <[c := mkCmd (c_path x) (c_args x) (Exited i)]> (w_cmds w).
Proof.
  unfold Run_wait, bind, Cmd_Wait, load, ProcessState_String, Stream_Shout,
    emit, ret, proc_state, set_proc.
  destruct (w_cmds w !! c) as [x|] eqn:Hc; cbn; [| discriminate].
  destruct (c_state x) as [| |i|i] eqn:Hst; cbn.
  - destruct (w_heap w !! p); cbn; [| discriminate]. rewrite Hc; cbn. rewrite Hst.
    intros [= <- <-]. left. reflexivity.
  - destruct (env_exit E c) as [i|]; [| discriminate].
    destruct (ei_err i); cbn.
    + destruct (w_heap w !! p); cbn; [| discriminate].
      rewrite list_lookup_insert_eq by (eapply lookup_lt_Some; eassumption). cbn.
      intros [= <- <-]. right. exists x, i. reflexivity.
    + intros [= <- <-]. right. exists x, i. reflexivity.
  - destruct (ei_err i); cbn.
    + destruct (w_heap w !! p); cbn; [| discriminate].
      rewrite list_lookup_insert_eq by (eapply lookup_lt_Some; eassumption). cbn.
      intros [= <- <-]. right. exists x, i. reflexivity.
    + intros [= <- <-]. right. exists x, i. reflexivity.
  - destruct (w_heap w !! p); cbn; [| discriminate]. rewrite Hc; cbn. rewrite Hst.
    intros [= <- <-]. left. reflexivity.
Qed.

(** One step of [Run]: started commands stay started, and the only write to
    a daemon variable is that of a started command into [d.cmd]. *)
Lemma Run_step_writes (p : nat) (pc pc' : RunPc) (w w' : World) :
  Run_step E p pc w = Some (pc', w') ->
  (forall c, startedb c w = true -> startedb c w' = true) /\
  (w_heap w' = w_heap w \/
   exists d0 c, w_heap w !! p = Some d0 /\
                w_heap w' = <[p := set_cmd (Some c) d0]> (w_heap w) /\
                startedb c w' = true).
Proof.
  destruct pc as [lastStart | lastStart c |]; cbn [Run_step].
  - rewrite Run_head_split.
    destruct (w_heap w !! p) as [d|] eqn:Hp; [| discriminate].
    destruct (stop d); [intros [= <- <-]; split; auto |].
    rewrite throttle_eq.
    destruct (throttled E (log d) lastStart w) as [t w1] eqn:Hth.
    assert (Hc1 : w_cmds w1 = w_cmds w /\ w_heap w1 = w_heap w).
    { unfold throttled in Hth. injection Hth as _ <-. split; reflexivity. }
    destruct Hc1 as [Hc1 Hh1].
    assert (Hp1 : w_heap w1 !! p = Some d) by (now rewrite Hh1).
    rewrite (launch_cases E p d d t w1 Hp1). cbv zeta.
    assert (Hold : forall w2 l, w_cmds w2 = w_cmds w1 ++ l ->
                     forall c, startedb c w = true -> startedb c w2 = true).
    { intros w2 l Hw2 c Hc. apply (startedb_cmds_app c w w2 l); [| exact Hc].
      now rewrite Hw2, Hc1. }
    destruct (env_stdout_pipe E _) as [e|];
      [intros [= <- <-]; split; [eapply Hold; reflexivity | left; exact Hh1] |].
    destruct (env_stderr_pipe E _) as [e|];
      [intros [= <- <-]; split; [eapply Hold; reflexivity | left; exact Hh1] |].
    destruct (env_start E _) as [e|];
      [intros [= <- <-]; split; [eapply Hold; reflexivity | left; exact Hh1] |].
    intros [= <- <-]. split; [eapply Hold; reflexivity |].
    right. exists d, (length (w_cmds w1)).
    split; [reflexivity |]. split; [cbn; now rewrite Hh1 |].
    unfold startedb, proc_state. cbn.
    rewrite lookup_app_r by lia. rewrite Nat.sub_diag. reflexivity.
  - intros Hrun.
    destruct (Run_wait_step E p lastStart c w w' pc' Hrun) as (_ & _ & Hheap & _).
    split; [| left; exact Hheap].
    destruct (Run_wait_cmds p lastStart c w w' pc' Hrun) as [Hc | (x & i & Hc)].
    + intros c0. apply (startedb_cmds_app c0 w w' []). now rewrite app_nil_r.
    + intros c0. apply (startedb_cmds_insert c c0 _ w w' Hc). discriminate.
  - intros [= <- <-]. split; auto.
Qed.

Lemma commands_started_Forall (w : World) :
  commands_started w = true <->
  Forall (fun d => holds_started w d = true) (w_heap w).
Proof.
  unfold commands_started. generalize (w_heap w) as l.
  induction l as [|d l IH]; cbn.
  - split; [constructor | reflexivity].
  - rewrite andb_true_iff, IH. split.
    + intros [H1 H2]. now constructor.
    + intros H. inversion H; subst. now split.
Qed.

(** X11: however far the goroutine of [Run] gets, from any point of its
    loop: if every daemon variable held no command or a started one, that
    is still so; no daemon variable is made or dropped; the daemon of this
    goroutine keeps its configuration, its log stream and its stop flag, so
    what [Run] writes of it is the command alone; and every other daemon
    variable is as it was. *)
Theorem Run_writes_only_started_commands :
  forall (n p : nat) (pc : RunPc) (w : World),
    commands_started w = true ->
    let w' := snd (Run_steps E n p pc w) in
    commands_started w' = true /\
    length (w_heap w') = length (w_heap w) /\
    (forall j d, w_heap w !! j = Some d ->
       exists d', w_heap w' !! j = Some d' /\
                  conf d' = conf d /\ log d' = log d /\ stop d' = stop d /\
                  (j <> p -> d' = d)) /\
    (forall c, startedb c w = true -> startedb c w' = true).
Proof.
  induction n as [|n IH]; intros p pc w Hinv; cbn [Run_steps].
  - cbn. split; [exact Hinv |]. split; [reflexivity |]. split; [| auto].
    intros j d Hj. exists d. auto.
  - destruct (Run_step E p pc w) as [[pc1 w1]|] eqn:Hstep.
    + destruct (Run_step_writes p pc pc1 w w1 Hstep) as [Hst Hheap].
      assert (Hinv1 : commands_started w1 = true).
      { apply commands_started_Forall. apply commands_started_Forall in Hinv.
        assert (Hmono : Forall (fun d => holds_started w1 d = true) (w_heap w)).
        { eapply Forall_impl; [exact Hinv |]. intros d Hd.
          exact (holds_started_mono w w1 d Hst Hd). }
        destruct Hheap as [-> | (d0 & c & Hp & -> & Hc)]; [exact Hmono |].
        apply Forall_insert; [exact Hmono |].
        unfold holds_started. cbn. exact Hc. }
      assert (Hlen1 : length (w_heap w1) = length (w_heap w)).
      { destruct Hheap as [-> | (d0 & c & Hp & -> & Hc)];
          [reflexivity | apply length_insert]. }
      assert (Hrel1 : forall j d, w_heap w !! j = Some d ->
                exists d', w_heap w1 !! j = Some d' /\
                           conf d' = conf d /\ log d' = log d /\ stop d' = stop d /\
                           (j <> p -> d' = d)).
      { intros j d Hj.
        destruct Hheap as [-> | (d0 & c & Hp & -> & Hc)]; [exists d; auto |].
        destruct (decide (j = p)) as [->|Hne].
        - rewrite Hp in Hj. injection Hj as <-.
          exists (set_cmd (Some c) d0).
          rewrite list_lookup_insert_eq by (eapply lookup_lt_Some; exact Hp).
          repeat split; congruence.
        - exists d. rewrite list_lookup_insert_ne by congruence. auto. }
      destruct (IH p pc1 w1 Hinv1) as (Hinv' & Hlen' & Hrel' & Hst').
      cbv zeta. split; [exact Hinv' |]. split; [lia |]. split.
      * intros j d Hj.
        destruct (Hrel1 j d Hj) as (d1 & Hj1 & Hc1 & Hl1 & Hs1 & He1).
        destruct (Hrel' j d1 Hj1) as (d' & Hj' & Hc' & Hl' & Hs' & He').
        exists d'. split; [exact Hj' |].
        split; [congruence |]. split; [congruence |]. split; [congruence |].
        intros Hne. rewrite (He' Hne). exact (He1 Hne).
      * intros c Hc. apply Hst', Hst, Hc.
    + cbn. split; [exact Hinv |]. split; [reflexivity |]. split; [| auto].
      intros j d Hj. exists d. auto.
Qed.

End RunWrites.

(** The theorem at the first two steps of the daemon of a pen just
    started: the launch and the wait. *)
Lemma Run_writes_only_started_commands_witness :
  commands_started pen_world_started = true /\
  let w' := snd (Run_steps env_ok 2 0 (AtLoop zeroTime) pen_world_started) in
  commands_started w' = true /\
  length (w_heap w') = length (w_heap pen_world_started) /\
  (forall j d, w_heap pen_world_started !! j = Some d ->
     exists d', w_heap w' !! j = Some d' /\
                conf d' = conf d /\ log d' = log d /\ stop d' = stop d /\
                (j <> 0%nat -> d' = d)) /\
  (forall c, startedb c pen_world_started = true -> startedb c w' = true).
Proof.
  split; [reflexivity |].
  apply (Run_writes_only_started_commands env_ok 2 0 (AtLoop zeroTime)
           pen_world_started).
  reflexivity.
Defined.

(** ** Restart and the loop of Run together *)

Section RestartRelaunch.

Variable E : Env.

(** [Wait] on a process that a signal has ended. *)
Lemma Run_wait_dying (p : nat) (d : daemon) (lastStart : Time) (c : nat) (w : World)
    (i : ExitInfo) :
  w_heap w !! p = Some d ->
  proc_state c w = Some (Dying i) ->
  Run_wait E p lastStart c w
  = Some (AtLoop lastStart,
          set_trace (w_trace w ++ EvWait c ::
                       match ei_err i with
                       | Some _ => [LogShout (log d) "%s" [ArgStr (ei_desc i)]]
                       | None => []
                       end)
            (set_proc c (Exited i) w)).
Proof.
  intros Hp Hdy. destruct w as [now ticks tr cmds heap tasks].
  unfold proc_state in Hdy. cbn [w_cmds w_heap] in *.
  destruct (cmds !! c) as [x|] eqn:Hc; [| discriminate]. cbn in Hdy.
  injection Hdy as Hst.
  unfold Run_wait, bind, Cmd_Wait, load, ProcessState_String, Stream_Shout,
    emit, ret, proc_state, set_proc, set_trace, set_cmds. cbn.
  rewrite Hc. cbn. rewrite Hst. cbn. rewrite ?Hc. cbn.
  destruct (ei_err i); cbn; [| reflexivity].
  rewrite Hp. cbn.
  rewrite list_lookup_insert_eq by (eapply lookup_lt_Some; eassumption). cbn.
  rewrite <- app_assoc. reflexivity.
Qed.

(** The first half of an iteration for a daemon that is not stopped: the
    header, and one command. *)
Lemma Run_head_relaunch (p : nat) (d : daemon) (lastStart : Time) (w : World) :
  w_heap w !! p = Some d -> stop d = false ->
  exists pc w' rest,
    Run_head E p lastStart w = Some (pc, w') /\
    pc <> Returned /\
    w_trace w' = w_trace w ++ LogHeader (log d) :: rest /\
    spawned rest = [(getShell, ["-c"; Daemon_Command (conf d)])].
Proof.
  intros Hp Hstop.
  rewrite Run_head_split, Hp, Hstop, throttle_eq.
  destruct (throttled_header E (log d) lastStart w) as (pre & Htr & Hsp).
  destruct (throttled_shouts E (log d) lastStart w) as (_ & _ & _ & _ & _ & Hh & _).
  destruct (throttled E (log d) lastStart w) as [t w2]. cbn [snd] in *.
  assert (Hp2 : w_heap w2 !! p = Some d) by now rewrite Hh.
  rewrite (launch_cases E p d d t w2 Hp2). cbv zeta. rewrite Htr.
  destruct (env_stdout_pipe E _) as [e|];
    [| destruct (env_stderr_pipe E _) as [e|];
       [| destruct (env_start E _) as [e|]]];
    do 3 eexists; (split; [reflexivity |]); (split; [discriminate |]);
    cbn [w_trace]; rewrite <- !app_assoc; cbn [app];
    (split; [reflexivity |]);
    rewrite spawned_app, Hsp; reflexivity.
Qed.

(** X12: [Restart] on a daemon that is not stopped and whose process runs.
    When the process dies of the restart signal, the loop of [Run], which
    was in [Wait], sees the exit, logs its description at high severity if
    the exit counts as an error, and launches the command again.  When the
    process lives on after the signal and does not end on its own, [Run]
    stays in [Wait] and launches nothing. *)
Theorem Restart_relaunches_when_signal_kills :
  forall (p : nat) (d : daemon) (lastStart : Time) (c : nat) (w : World),
    w_heap w !! p = Some d -> stop d = false -> cmd d = Some c ->
    proc_state c w = Some Live ->
    let sig := RestartSignal (conf d) in
    (forall i, env_signal E c sig = Some i ->
       exists w1 pc w' rest,
         daemon_Restart E p w = Some (tt, w1) /\
         Run_steps E 2 p (AtWait lastStart c) w1 = (pc, w') /\
         pc <> Returned /\
         w_trace w' = w_trace w
                       ++ [LogHeader (log d); EvSignal c sig true; EvWait c]
                       ++ match ei_err i with
                          | Some _ => [LogShout (log d) "%s" [ArgStr (ei_desc i)]]
                          | None => []
                          end
                       ++ LogHeader (log d) :: rest /\
         spawned rest = [(getShell, ["-c"; Daemon_Command (conf d)])]) /\
    (env_signal E c sig = None -> env_exit E c = None ->
       exists w1,
         daemon_Restart E p w = Some (tt, w1) /\
         w_trace w1 = w_trace w ++ [LogHeader (log d); EvSignal c sig true] /\
         forall n, Run_steps E n p (AtWait lastStart c) w1 = (AtWait lastStart c, w1)).
Proof.
  intros p d ls c w Hp Hstop Hcmd Hlive sig.
  pose proof (daemon_Restart_cases E p d w Hp) as Hre. cbv zeta in Hre.
  rewrite Hcmd, Hlive in Hre. fold sig in Hre.
  split.
  - intros i Hsig. rewrite Hsig in Hre.
    set (w1 := set_trace (w_trace w ++ [LogHeader (log d); EvSignal c sig true])
                 (set_proc c (Dying i) w)) in *.
    assert (Hh1 : w_heap w1 = w_heap w).
    { unfold w1. cbn [w_heap set_trace]. apply set_proc_heap. }
    assert (Hdy : proc_state c w1 = Some (Dying i)).
    { unfold w1. change (proc_state c (set_trace ?t ?v)) with (proc_state c v).
      rewrite proc_state_set_proc. destruct (decide (c = c)); [| congruence].
      now rewrite Hlive. }
    assert (Hp1 : w_heap w1 !! p = Some d) by now rewrite Hh1.
    assert (Ht1 : w_trace w1 = w_trace w ++ [LogHeader (log d); EvSignal c sig true])
      by reflexivity.
    clearbody w1.
    assert (Hgo : exists pc w' rest,
               Run_steps E 2 p (AtWait ls c) w1 = (pc, w') /\
               pc <> Returned /\
               w_trace w' = w_trace w
                       ++ [LogHeader (log d); EvSignal c sig true; EvWait c]
                       ++ match ei_err i with
                          | Some _ => [LogShout (log d) "%s" [ArgStr (ei_desc i)]]
                          | None => []
                          end
                       ++ LogHeader (log d) :: rest /\
               spawned rest = [(getShell, ["-c"; Daemon_Command (conf d)])]);
      [| destruct Hgo as (pc & w' & rest & Hgo); exists w1, pc, w', rest;
         split; [exact Hre | exact Hgo]].
    cbn [Run_steps Run_step].
    rewrite (Run_wait_dying p d ls c w1 i Hp1 Hdy).
    set (w2 := set_trace _ (set_proc c (Exited i) w1)).
    assert (Hp2 : w_heap w2 !! p = Some d).
    { unfold w2. cbn [w_heap set_trace]. now rewrite set_proc_heap. }
    assert (Ht2 : w_trace w2 = w_trace w1 ++ EvWait c ::
                       match ei_err i with
                       | Some _ => [LogShout (log d) "%s" [ArgStr (ei_desc i)]]
                       | None => []
                       end) by reflexivity.
    clearbody w2. cbn [Run_step].
    destruct (Run_head_relaunch p d ls w2 Hp2 Hstop) as (pc & w' & rest & Hrun & Hpc & Htr & Hsp).
    rewrite Hrun. exists pc, w', rest.
    split; [reflexivity |]. split; [exact Hpc |].
    split; [| exact Hsp].
    rewrite Htr, Ht2, Ht1. rewrite <- !app_assoc. reflexivity.
  - intros Hsig Hex. rewrite Hsig in Hre.
    set (w1 := set_trace (w_trace w ++ [LogHeader (log d); EvSignal c sig true]) w) in *.
    exists w1. split; [exact Hre |]. split; [reflexivity |].
    assert (Hblock : Run_wait E p ls c w1 = None).
    { unfold Run_wait, bind, Cmd_Wait.
      change (proc_state c w1) with (proc_state c w). now rewrite Hlive, Hex. }
    intros n. destruct n as [|n]; [reflexivity |].
    cbn [Run_steps Run_step]. now rewrite Hblock.
Qed.

End RestartRelaunch.

(** The theorem at a daemon whose process runs and dies of the signal. *)
Lemma Restart_relaunches_when_signal_kills_witness :
  exists w1 pc w' rest,
    daemon_Restart env_ok 0 world_running = Some (tt, w1) /\
    Run_steps env_ok 2 0 (AtWait 0 0) w1 = (pc, w') /\
    pc <> Returned /\
    w_trace w' = w_trace world_running
                  ++ [LogHeader (log a_daemon); EvSignal 0 SIGHUP true; EvWait 0]
                  ++ [LogShout (log a_daemon) "%s" [ArgStr (ei_desc killed)]]
                  ++ LogHeader (log a_daemon) :: rest /\
    spawned rest = [(getShell, ["-c"; "devd -m ./public"])].
Proof.
  destruct (Restart_relaunches_when_signal_kills env_ok 0
              (set_cmd (Some 0%nat) a_daemon) 0 0%nat world_running
              eq_refl eq_refl eq_refl eq_refl) as [Hkill _].
  exact (Hkill killed eq_refl).
Defined.
